(** * SPOKIO backend: presence table, fan-out messaging and the JSON record store

    A shallow embedding of the parts of [src/server.js] that the real-time
    messaging layer is made of: the [readData]/[writeData] record store, the
    authentication middleware, the HTTP routes for group messages, emergency
    alerts and direct messages, the Socket.IO handlers, and the registration
    of a user.

    Conventions.
    - A handler without [await] runs to completion: it is a synchronous
      function ([fs.readFileSync], [fs.writeFileSync]), hence a function
      from the world before to the world after.  The handlers of the
      dispatcher and the routes of the second part are of this kind.  Not
      every handler of [server.js] is: the registration route awaits
      [bcryptjs] twice between reading the users and writing them (the
      login route awaits it once).  The registration is described stage by
      stage, and the event loop of [schedule] gives a turn to any request
      in flight between two stages.  The login route is not described.
    - What a handler obtains from its environment ([generateId()],
      [new Date()], whether [fs.writeFileSync] succeeds) is passed in as an
      [Env] record, one per handler invocation.
    - JavaScript values that arrive in a request body, in a route parameter
      or as the argument of a presence event are scalars of type [value].
      The payload of [send-group-message] is any JSON value, of type
      [json].  Numbers are integers, [VNum n] for an integer [n] that a
      double holds (no NaN, no fractions).  A property that is absent reads
      as [VUndefined], which is also what [JSON.stringify] drops, so a
      persisted record is the record the handler built.
    - The records found in the data files are well formed: every property a
      handler reads is there.  The [catch] branches of the HTTP handlers,
      which answer 500, are then never taken; the one [catch] that can be
      reached, in the [send-group-message] handler, is modelled.
    - A write that fails leaves the file as it was.
    - [w_writes] is not part of the program: it keeps the result of every
      [writeData] call, and serves below only to say that a handler made no
      such call. *)

From Stdlib Require Import ZArith String Ascii List Lia Permutation.
From stdpp Require Import base option list gmap sets strings pretty countable.
Import ListNotations.

Local Open Scope string_scope.
Local Open Scope Z_scope.
Local Open Scope list_scope.

(** ** JavaScript scalars *)

Inductive value :=
| VUndefined
| VNull
| VBool (b : bool)
| VNum (n : Z)
| VStr (s : string).

#[global] Instance value_eq_dec : EqDecision value.
Proof. solve_decision. Defined.

Definition value_encode (v : value) : unit + (unit + (bool + (Z + string))) :=
  match v with
  | VUndefined => inl tt
  | VNull => inr (inl tt)
  | VBool b => inr (inr (inl b))
  | VNum n => inr (inr (inr (inl n)))
  | VStr s => inr (inr (inr (inr s)))
  end.

Definition value_decode (x : unit + (unit + (bool + (Z + string)))) : value :=
  match x with
  | inl _ => VUndefined
  | inr (inl _) => VNull
  | inr (inr (inl b)) => VBool b
  | inr (inr (inr (inl n))) => VNum n
  | inr (inr (inr (inr s))) => VStr s
  end.

#[global] Instance value_countable : Countable value.
Proof.
  apply (inj_countable' value_encode value_decode).
  intros []; reflexivity.
Defined.

(** [if (v)], [!v], [a || b]: JavaScript truthiness. *)
Definition truthy (v : value) : bool :=
  match v with
  | VUndefined | VNull => false
  | VBool b => b
  | VNum n => negb (n =? 0)
  | VStr s => negb (String.eqb s "")
  end.

(** *** Numbers as strings

    A JavaScript number is a double.  [to_double a] is the integer that the
    double nearest to the integer [a >= 0] holds (53 bits of mantissa, ties
    to the even mantissa); up to [2 ^ 53] it is [a] itself. *)
Definition to_double (a : Z) : Z :=
  let bits := Z.log2 a + 1 in
  if bits <=? 53 then a
  else
    let e := bits - 53 in
    let q := Z.shiftr a e in
    let r := a - Z.shiftl q e in
    let half := Z.shiftl 1 (e - 1) in
    let q' := if (half <? r) || ((r =? half) && Z.odd q) then q + 1 else q in
    Z.shiftl q' e.

(** The number of [k] digits which, followed by [n - k] zeros, is read back
    as [x]: the one below [x] or the one above, the closer of the two when
    both are. *)
Definition digits_for (x n k : Z) : option Z :=
  let unit := 10 ^ (n - k) in
  let lo := x / unit in
  let hi := lo + 1 in
  let ok_lo := to_double (lo * unit) =? x in
  let ok_hi := to_double (hi * unit) =? x in
  if ok_lo && ok_hi then Some (if x - lo * unit <=? hi * unit - x then lo else hi)
  else if ok_lo then Some lo
  else if ok_hi then Some hi
  else None.

(** The shortest such number, with its length. *)
Fixpoint shortest (fuel : nat) (x n k : Z) : Z * Z :=
  match fuel with
  | O => (x, n)
  | S fuel' =>
      match digits_for x n k with
      | Some s => (s, k)
      | None => shortest fuel' x n (k + 1)
      end
  end.

Fixpoint zeros (n : nat) : string :=
  match n with
  | O => EmptyString
  | S n' => String "0" (zeros n')
  end.

(** [Number.prototype.toString] on an integer: the shortest digits that
    denote the same double, followed by zeros up to 21 digits
    ([2 ** 64] is printed [18446744073709552000]), and with an exponent
    from [1e21] on ([1e+21]). *)
Definition number_to_string (z : Z) : string :=
  if z =? 0 then "0"
  else
    let sign := if z <? 0 then "-" else "" in
    let a := Z.abs z in
    if 2 ^ 1024 - 2 ^ 970 <=? a then String.append sign "Infinity"
    else
      let x := to_double a in
      let n := Z.of_nat (String.length (pretty x)) in
      let '(s, k) := shortest (Z.to_nat n) x n 1 in
      let '(s, k, n) := if s =? 10 ^ k then (1, 1, n + 1) else (s, k, n) in
      if n <=? 21
      then String.append sign (String.append (pretty s) (zeros (Z.to_nat (n - k))))
      else
        match pretty s with
        | String d rest =>
            String.append sign
              (String d (String.append (if k =? 1 then "" else String "." rest)
                           (String.append "e+" (pretty (n - 1)))))
        | EmptyString => ""
        end.

(** String conversion of a scalar, as in a template literal [`${v}`]. *)
Definition to_string (v : value) : string :=
  match v with
  | VUndefined => "undefined"
  | VNull => "null"
  | VBool true => "true"
  | VBool false => "false"
  | VNum n => number_to_string n
  | VStr s => s
  end.

(** ** What a client can send

    The payload of a socket event is any JSON value: a scalar, an array or
    an object.  The properties of an object are kept in the order of the
    text they were parsed from. *)
#[local] Unset Elimination Schemes.
Inductive json :=
| JScalar (v : value)
| JArray (items : list json)
| JObject (fields : list (string * json)).
#[local] Set Elimination Schemes.

Coercion JScalar : value >-> json.

(** [a === b].  An array or an object is equal to itself only; the handlers
    compare what they stored with a string. *)
Definition strict_eq (a b : json) : bool :=
  match a, b with
  | JScalar x, JScalar y => bool_decide (x = y)
  | _, _ => false
  end.

(** String conversion in a template literal; [None] when it throws a
    [TypeError].  An array joins the strings of its items, with nothing for
    [null] and [undefined].  An object that came from JSON has no method of
    its own: without a property named [toString] it is printed by
    [Object.prototype.toString]; with one, which is not callable, the
    conversion falls back on [valueOf], which gives no primitive, and
    throws. *)
Fixpoint json_to_string (j : json) : option string :=
  match j with
  | JScalar v => Some (to_string v)
  | JArray items =>
      (fix join (l : list json) : option string :=
         match l with
         | [] => Some EmptyString
         | x :: rest =>
             let first :=
               match x with
               | JScalar VUndefined | JScalar VNull => Some EmptyString
               | _ => json_to_string x
               end in
             match rest with
             | [] => first
             | _ :: _ =>
                 match first, join rest with
                 | Some s, Some r => Some (String.append s (String.append "," r))
                 | _, _ => None
                 end
             end
         end) items
  | JObject fields =>
      if existsb (fun p => String.eqb (fst p) "toString") fields then None
      else Some "[object Object]"
  end.

(** [data.name] for a name that [Object.prototype] does not define: the
    value of the last property of that name ([JSON.parse] keeps the last of
    two), [undefined] when there is none or when [data] is not an object. *)
Definition property (name : string) (data : json) : json :=
  match data with
  | JObject fields =>
      match List.find (fun p => String.eqb (fst p) name) (rev fields) with
      | Some p => snd p
      | None => JScalar VUndefined
      end
  | _ => JScalar VUndefined
  end.

(** [a || b] *)
Definition js_or (a b : value) : value := if truthy a then a else b.

(** ** Persisted records *)

Record User := {
  u_id : string;
  u_username : string;
  u_email : string;
  u_name : string;      (* profile.name *)
  u_avatar : string     (* profile.avatar *)
}.

Record Group := {
  g_id : string;
  g_name : string;
  g_members : list string;
  g_memberCount : Z;
  g_messageCount : Z
}.

Record Reactions := {
  thumbsUp : Z;
  thumbsDown : Z;
  heart : Z;
  laugh : Z
}.

Record Message := {
  m_id : string;
  m_groupId : json;
  m_userId : value;
  m_content : json;
  m_messageType : string;
  m_reactions : Reactions;
  m_isEdited : bool;
  m_createdAt : Z
}.

Inductive Status := active | resolved | cancelled.

#[global] Instance Status_eq_dec : EqDecision Status.
Proof. solve_decision. Defined.

(** A location is an object of scalar fields; [{}] is the empty list. *)
Definition Location : Type := list (string * value).

Record Alert := {
  a_id : string;
  a_userId : string;
  a_status : Status;
  a_location : Location;
  a_message : value;
  a_severity : value;
  a_emergencyContacts : list string;
  a_responders : list string;
  a_notes : string;
  a_createdAt : Z;
  a_resolvedAt : option Z;
  a_cancelledAt : option Z
}.

Record DirectMessage := {
  dm_id : string;
  dm_sender : string;
  dm_recipient : value;
  dm_content : value;
  dm_isRead : bool;
  dm_createdAt : Z
}.

(** ** The data files *)

Inductive FileKey := FUsers | FGroups | FMessages | FEmergency | FDirectMessages.

#[global] Instance FileKey_eq_dec : EqDecision FileKey.
Proof. solve_decision. Defined.

(** The content of each file of [FILES]; [None] is a file that cannot be
    read or parsed. *)
Record Disk := {
  d_users : option (list User);
  d_groups : option (list Group);
  d_messages : option (list Message);
  d_emergency : option (list Alert);
  d_directMessages : option (list DirectMessage)
}.

(** An entry of [FILES]: the path, with the typed access to its content. *)
Record File (A : Type) := {
  f_key : FileKey;
  f_get : Disk -> option (list A);
  f_set : list A -> Disk -> Disk
}.
Arguments f_key {A} _.
Arguments f_get {A} _ _.
Arguments f_set {A} _ _ _.

Definition FILES_users : File User :=
  {| f_key := FUsers; f_get := d_users;
     f_set := fun l d => {| d_users := Some l; d_groups := d_groups d;
                            d_messages := d_messages d; d_emergency := d_emergency d;
                            d_directMessages := d_directMessages d |} |}.

Definition FILES_groups : File Group :=
  {| f_key := FGroups; f_get := d_groups;
     f_set := fun l d => {| d_users := d_users d; d_groups := Some l;
                            d_messages := d_messages d; d_emergency := d_emergency d;
                            d_directMessages := d_directMessages d |} |}.

Definition FILES_messages : File Message :=
  {| f_key := FMessages; f_get := d_messages;
     f_set := fun l d => {| d_users := d_users d; d_groups := d_groups d;
                            d_messages := Some l; d_emergency := d_emergency d;
                            d_directMessages := d_directMessages d |} |}.

Definition FILES_emergency : File Alert :=
  {| f_key := FEmergency; f_get := d_emergency;
     f_set := fun l d => {| d_users := d_users d; d_groups := d_groups d;
                            d_messages := d_messages d; d_emergency := Some l;
                            d_directMessages := d_directMessages d |} |}.

Definition FILES_directMessages : File DirectMessage :=
  {| f_key := FDirectMessages; f_get := d_directMessages;
     f_set := fun l d => {| d_users := d_users d; d_groups := d_groups d;
                            d_messages := d_messages d; d_emergency := d_emergency d;
                            d_directMessages := Some l |} |}.

(** ** Events sent to clients *)

Inductive Target :=
| ToAll                    (* io.emit *)
| ToRoom (room : string)   (* io.to(room).emit *)
| ToSocket (sid : string). (* socket.emit *)

Record UserInfo := {
  ui_id : string;
  ui_username : string;
  ui_name : string;
  ui_avatar : string
}.

(** The message as it is sent out: the record, and the [user] property,
    which is absent ([None]), [null] ([Some None]) or the author's details. *)
Record MessageResponse := {
  mr_message : Message;
  mr_user : option (option UserInfo)
}.

Record EmergencyBroadcast := {
  eb_userId : value;
  eb_userName : option string;
  eb_location : option Location;
  eb_message : value;
  eb_timestamp : Z;
  eb_emergencyId : option string
}.

Record DirectNotice := {
  dn_senderId : value;
  dn_senderName : option string;
  dn_content : value;
  dn_timestamp : Z
}.

Inductive Payload :=
| PUserStatus (userId : value) (status : string) (totalOnline : nat)
| PNewMessage (success : bool) (message : MessageResponse)
| PUserTyping (username : value) (isTyping : bool)
| PEmergencyBroadcast (b : EmergencyBroadcast)
| PNewDirectMessage (n : DirectNotice)
| PError (message : string).

Record Emission := {
  em_target : Target;
  em_event : string;
  em_payload : Payload
}.

(** Lines written by [console.error] in the data functions. *)
Inductive LogLine :=
| ErrorReading (k : FileKey)
| ErrorWriting (k : FileKey).

(** ** The world a handler runs in *)

Record World := {
  w_disk : Disk;
  (** [connectedUsers]: user id to socket id *)
  w_connectedUsers : gmap value string;
  (** [socket.userId] of the sockets on which it has been set *)
  w_socketUser : gmap string value;
  (** rooms joined through [socket.join] *)
  w_rooms : gmap string (gset string);
  (** what has been emitted so far, oldest first *)
  w_emitted : list Emission;
  w_console : list LogLine;
  (** every [writeData] call so far with the value it returned, oldest first *)
  w_writes : list (FileKey * bool)
}.

(** What one handler invocation gets from outside. *)
Record Env := {
  e_id : string;                 (* generateId() *)
  e_date : nat -> Z;             (* the k-th [new Date()] of the handler *)
  e_write_ok : FileKey -> bool   (* does fs.writeFileSync succeed on this file *)
}.

(** ** A state monad over the world *)

Definition M (A : Type) : Type := World -> A * World.

Definition ret {A} (a : A) : M A := fun w => (a, w).

Definition bind {A B} (c : M A) (k : A -> M B) : M B :=
  fun w => let (a, w') := c w in k a w'.

Declare Scope m_scope.
Delimit Scope m_scope with M.
Notation "'let*' x ':=' c 'in' k" := (bind c (fun x => k))
  (at level 10, x name, c at level 100, k at level 200) : m_scope.
Notation "'run' c 'then' k" := (bind c (fun _ => k))
  (at level 10, c at level 100, k at level 200) : m_scope.
Local Open Scope m_scope.

Definition set_disk (d : Disk) (w : World) : World :=
  {| w_disk := d; w_connectedUsers := w_connectedUsers w;
     w_socketUser := w_socketUser w; w_rooms := w_rooms w;
     w_emitted := w_emitted w; w_console := w_console w;
     w_writes := w_writes w |}.

Definition log (l : LogLine) : M unit := fun w =>
  (tt, {| w_disk := w_disk w; w_connectedUsers := w_connectedUsers w;
          w_socketUser := w_socketUser w; w_rooms := w_rooms w;
          w_emitted := w_emitted w; w_console := w_console w ++ [l];
          w_writes := w_writes w |}).

Definition emit (t : Target) (ev : string) (p : Payload) : M unit := fun w =>
  (tt, {| w_disk := w_disk w; w_connectedUsers := w_connectedUsers w;
          w_socketUser := w_socketUser w; w_rooms := w_rooms w;
          w_emitted := w_emitted w ++ [{| em_target := t; em_event := ev; em_payload := p |}];
          w_console := w_console w;
          w_writes := w_writes w |}).

Definition record_write (k : FileKey) (ok : bool) : M unit := fun w =>
  (tt, {| w_disk := w_disk w; w_connectedUsers := w_connectedUsers w;
          w_socketUser := w_socketUser w; w_rooms := w_rooms w;
          w_emitted := w_emitted w; w_console := w_console w;
          w_writes := w_writes w ++ [(k, ok)] |}).

(** ** DATA FUNCTIONS *)

(** [readData(filePath)]: the parsed content, or [[]] with a line on the
    console when reading or parsing throws. *)
Definition readData {A} (f : File A) : M (list A) := fun w =>
  match f_get f (w_disk w) with
  | Some l => (l, w)
  | None => ([], snd (log (ErrorReading (f_key f)) w))
  end.

(** [writeData(filePath, data)]: replaces the whole content and returns
    [true]; when [fs.writeFileSync] throws, the file is left as it was, a
    line goes to the console and the result is [false]. *)
Definition writeData {A} (env : Env) (f : File A) (data : list A) : M bool := fun w =>
  if e_write_ok env (f_key f)
  then (true, snd (record_write (f_key f) true (set_disk (f_set f data (w_disk w)) w)))
  else (false, snd ((run log (ErrorWriting (f_key f)) then record_write (f_key f) false) w)).

(** ** Array helpers *)

(** [arr.findIndex(p)]; [None] stands for [-1]. *)
Fixpoint findIndex {A} (p : A -> bool) (l : list A) : option nat :=
  match l with
  | [] => None
  | x :: rest => if p x then Some 0%nat else S <$> findIndex p rest
  end.

(** [arr.includes(x)] on an array of strings. *)
Definition includes (x : string) (l : list string) : bool :=
  existsb (String.eqb x) l.

(** [s.split(' ')] *)
Fixpoint split_space (s : string) : list string :=
  match s with
  | EmptyString => [EmptyString]
  | String c rest =>
      if Ascii.eqb c " "%char then EmptyString :: split_space rest
      else match split_space rest with
           | [] => [String c EmptyString]
           | h :: t => String c h :: t
           end
  end.

(** ** HTTP requests and responses *)

Record Body := {
  b_content : value;
  b_recipientId : value;
  b_message : value;
  b_location : option Location;
  b_severity : value
}.

Record Request := {
  req_authorization : option string;   (* req.headers.authorization *)
  req_params_id : string;              (* req.params.id *)
  req_body : Body
}.

Inductive RespData :=
| DNone
| DMessage (m : MessageResponse)
| DAlert (a : Alert)
| DDirect (d : DirectMessage).

Record Response := {
  r_status : Z;
  r_success : bool;
  r_message : string;
  r_data : RespData
}.

Definition reject (code : Z) (msg : string) : Response :=
  {| r_status := code; r_success := false; r_message := msg; r_data := DNone |}.

Definition user_info (u : User) : UserInfo :=
  {| ui_id := u_id u; ui_username := u_username u;
     ui_name := u_name u; ui_avatar := u_avatar u |}.

(** ** UTILITIES & HELPERS: the authentication middleware *)

Section Auth.

(** [jwt.verify(token, secret)]: the [userId] of the decoded token, or
    [None] when it throws. *)
Variable jwt_verify : string -> option string.

(** [authMiddleware]: either the 401 response, or the user put in
    [req.user]. *)
Definition authMiddleware (req : Request) : M (Response + User) :=
  let token := match req_authorization req with
               | Some h => nth_error (split_space h) 1
               | None => None
               end in
  match token with
  | None => ret (inl (reject 401 "No authentication token provided"))
  | Some tok =>
      if String.eqb tok "" then ret (inl (reject 401 "No authentication token provided"))
      else
        match jwt_verify tok with
        | None => ret (inl (reject 401 "Invalid token"))
        | Some uid =>
            let* users := readData FILES_users in
            match List.find (fun u => String.eqb (u_id u) uid) users with
            | None => ret (inl (reject 401 "User not found"))
            | Some user => ret (inr user)
            end
        end
  end.

(** [app.post(path, authMiddleware, handler)] *)
Definition route (handler : User -> Request -> M Response) (req : Request) : M Response :=
  let* a := authMiddleware req in
  match a with
  | inl resp => ret resp
  | inr user => handler user req
  end.

End Auth.

(** ** ROUTES - COMMUNITY: send message to group *)

Definition no_reactions : Reactions :=
  {| thumbsUp := 0; thumbsDown := 0; heart := 0; laugh := 0 |}.

Definition group_room (groupId : value) : string :=
  String.append "group-" (to_string groupId).

Definition bump_messageCount (g : Group) : Group :=
  {| g_id := g_id g; g_name := g_name g; g_members := g_members g;
     g_memberCount := g_memberCount g; g_messageCount := g_messageCount g + 1 |}.

(** [POST /api/community/groups/:id/messages] *)
Definition post_group_message (env : Env) (user : User) (req : Request) : M Response :=
  let content := b_content (req_body req) in
  if negb (truthy content) then ret (reject 400 "Message content is required")
  else
    let* groups := readData FILES_groups in
    match List.find (fun g => String.eqb (g_id g) (req_params_id req)) groups with
    | None => ret (reject 404 "Group not found")
    | Some group =>
        if negb (includes (u_id user) (g_members group))
        then ret (reject 403 "You are not a member of this group")
        else
          let* messages := readData FILES_messages in
          let newMessage :=
            {| m_id := e_id env;
               m_groupId := VStr (req_params_id req);
               m_userId := VStr (u_id user);
               m_content := content;
               m_messageType := "text";
               m_reactions := no_reactions;
               m_isEdited := false;
               m_createdAt := e_date env 0 |} in
          run writeData env FILES_messages (messages ++ [newMessage]) then
          (* Update group message count *)
          run match findIndex (fun g => String.eqb (g_id g) (req_params_id req)) groups with
              | Some groupIndex =>
                  run writeData env FILES_groups (alter bump_messageCount groupIndex groups)
                  then ret tt
              | None => ret tt
              end then
          (* Get user info *)
          let* users := readData FILES_users in
          let messageResponse :=
            {| mr_message := newMessage;
               mr_user := Some (user_info <$> List.find (fun u => String.eqb (u_id u) (u_id user)) users) |} in
          run emit (ToRoom (group_room (VStr (req_params_id req)))) "new-message"
                   (PNewMessage true messageResponse) then
          ret {| r_status := 201; r_success := true; r_message := "Message sent";
                 r_data := DMessage messageResponse |}
    end.

(** ** ROUTES - EMERGENCY *)

(** [POST /api/emergency/alert] *)
Definition post_emergency_alert (env : Env) (user : User) (req : Request) : M Response :=
  let message := b_message (req_body req) in
  let location := b_location (req_body req) in
  let severity := b_severity (req_body req) in
  let* emergency := readData FILES_emergency in
  let newAlert :=
    {| a_id := e_id env;
       a_userId := u_id user;
       a_status := active;
       a_location := default [] location;
       a_message := js_or message (VStr "");
       a_severity := js_or severity (VStr "high");
       a_emergencyContacts := [];
       a_responders := [];
       a_notes := "";
       a_createdAt := e_date env 0;
       a_resolvedAt := None;
       a_cancelledAt := None |} in
  run writeData env FILES_emergency (emergency ++ [newAlert]) then
  run emit ToAll "emergency-broadcast"
        (PEmergencyBroadcast
           {| eb_userId := VStr (u_id user);
              eb_userName := Some (if String.eqb (u_name user) "" then u_username user
                                   else u_name user);
              eb_location := location;
              eb_message := message;
              eb_timestamp := e_date env 1;
              eb_emergencyId := Some (a_id newAlert) |}) then
  ret {| r_status := 201; r_success := true; r_message := "Emergency alert activated";
         r_data := DAlert newAlert |}.

Definition set_resolved (now : Z) (a : Alert) : Alert :=
  {| a_id := a_id a; a_userId := a_userId a; a_status := resolved;
     a_location := a_location a; a_message := a_message a; a_severity := a_severity a;
     a_emergencyContacts := a_emergencyContacts a; a_responders := a_responders a;
     a_notes := a_notes a; a_createdAt := a_createdAt a;
     a_resolvedAt := Some now; a_cancelledAt := a_cancelledAt a |}.

Definition set_cancelled (now : Z) (a : Alert) : Alert :=
  {| a_id := a_id a; a_userId := a_userId a; a_status := cancelled;
     a_location := a_location a; a_message := a_message a; a_severity := a_severity a;
     a_emergencyContacts := a_emergencyContacts a; a_responders := a_responders a;
     a_notes := a_notes a; a_createdAt := a_createdAt a;
     a_resolvedAt := a_resolvedAt a; a_cancelledAt := Some now |}.

(** [POST /api/emergency/alerts/:id/resolve] *)
Definition post_alert_resolve (env : Env) (user : User) (req : Request) : M Response :=
  let* alerts := readData FILES_emergency in
  match findIndex (fun a => String.eqb (a_id a) (req_params_id req)) alerts with
  | None => ret (reject 404 "Alert not found")
  | Some alertIndex =>
      match alerts !! alertIndex with
      | None => ret (reject 500 "Cannot read properties of undefined")  (* the catch branch *)
      | Some alert =>
          let alert' := set_resolved (e_date env 0) alert in
          run writeData env FILES_emergency (<[alertIndex := alert']> alerts) then
          ret {| r_status := 200; r_success := true; r_message := "Emergency alert resolved";
                 r_data := DAlert alert' |}
      end
  end.

(** [POST /api/emergency/alerts/:id/cancel] *)
Definition post_alert_cancel (env : Env) (user : User) (req : Request) : M Response :=
  let* alerts := readData FILES_emergency in
  match findIndex (fun a => String.eqb (a_id a) (req_params_id req)) alerts with
  | None => ret (reject 404 "Alert not found")
  | Some alertIndex =>
      match alerts !! alertIndex with
      | None => ret (reject 500 "Cannot read properties of undefined")  (* the catch branch *)
      | Some alert =>
          if negb (String.eqb (a_userId alert) (u_id user))
          then ret (reject 404 "Alert not found")
          else
            let alert' := set_cancelled (e_date env 0) alert in
            run writeData env FILES_emergency (<[alertIndex := alert']> alerts) then
            ret {| r_status := 200; r_success := true; r_message := "Emergency alert cancelled";
                   r_data := DAlert alert' |}
      end
  end.

(** ** ROUTES - DIRECT MESSAGES *)

Definition connectedUsers_get (userId : value) : M (option string) := fun w =>
  (w_connectedUsers w !! userId, w).

Definition connectedUsers_size : M nat := fun w => (size (w_connectedUsers w), w).

(** [POST /api/messages/send] *)
Definition post_messages_send (env : Env) (user : User) (req : Request) : M Response :=
  let recipientId := b_recipientId (req_body req) in
  let content := b_content (req_body req) in
  if negb (truthy recipientId) || negb (truthy content)
  then ret (reject 400 "Recipient and message content are required")
  else
    let* directMessages := readData FILES_directMessages in
    let newMessage :=
      {| dm_id := e_id env;
         dm_sender := u_id user;
         dm_recipient := recipientId;
         dm_content := content;
         dm_isRead := false;
         dm_createdAt := e_date env 0 |} in
    run writeData env FILES_directMessages (directMessages ++ [newMessage]) then
    let* recipientSocket := connectedUsers_get recipientId in
    run match recipientSocket with
        | Some sock =>
            if truthy (VStr sock)
            then emit (ToRoom sock) "new-direct-message"
                   (PNewDirectMessage
                      {| dn_senderId := VStr (u_id user);
                         dn_senderName := Some (u_name user);
                         dn_content := content;
                         dn_timestamp := e_date env 1 |})
            else ret tt
        | None => ret tt
        end then
    ret {| r_status := 201; r_success := true; r_message := "Message sent";
           r_data := DDirect newMessage |}.

(** ** SOCKET.IO HANDLERS *)

Record TypingData := {
  ty_groupId : value;
  ty_username : value
}.

Record AlertData := {
  ad_location : option Location;
  ad_message : value
}.

Record DirectData := {
  dd_recipientId : value;
  dd_content : value
}.

(** How a socket handler ends: normally, or with an exception that leaves
    the handler (no [try] around it). *)
Inductive SockOutcome := Handled | Uncaught.

Definition connectedUsers_set (userId : value) (sid : string) : M unit := fun w =>
  (tt, {| w_disk := w_disk w; w_connectedUsers := <[userId := sid]> (w_connectedUsers w);
          w_socketUser := w_socketUser w; w_rooms := w_rooms w;
          w_emitted := w_emitted w; w_console := w_console w;
          w_writes := w_writes w |}).

Definition connectedUsers_delete (userId : value) : M unit := fun w =>
  (tt, {| w_disk := w_disk w; w_connectedUsers := delete userId (w_connectedUsers w);
          w_socketUser := w_socketUser w; w_rooms := w_rooms w;
          w_emitted := w_emitted w; w_console := w_console w;
          w_writes := w_writes w |}).

(** [socket.userId = userId] *)
Definition set_socket_userId (sid : string) (userId : value) : M unit := fun w =>
  (tt, {| w_disk := w_disk w; w_connectedUsers := w_connectedUsers w;
          w_socketUser := <[sid := userId]> (w_socketUser w); w_rooms := w_rooms w;
          w_emitted := w_emitted w; w_console := w_console w;
          w_writes := w_writes w |}).

(** [socket.userId]; [undefined] until a [user-join] has set it. *)
Definition socket_userId (sid : string) : M value := fun w =>
  (default VUndefined (w_socketUser w !! sid), w).

Definition room_members (room : string) (w : World) : gset string :=
  default ∅ (w_rooms w !! room).

(** [socket.join(room)] *)
Definition socket_join (sid room : string) : M unit := fun w =>
  (tt, {| w_disk := w_disk w; w_connectedUsers := w_connectedUsers w;
          w_socketUser := w_socketUser w;
          w_rooms := <[room := {[sid]} ∪ room_members room w]> (w_rooms w);
          w_emitted := w_emitted w; w_console := w_console w;
          w_writes := w_writes w |}).

(** [socket.leave(room)] *)
Definition socket_leave (sid room : string) : M unit := fun w =>
  (tt, {| w_disk := w_disk w; w_connectedUsers := w_connectedUsers w;
          w_socketUser := w_socketUser w;
          w_rooms := <[room := room_members room w ∖ {[sid]}]> (w_rooms w);
          w_emitted := w_emitted w; w_console := w_console w;
          w_writes := w_writes w |}).

(** [socket.on('user-join', (userId) => ...)] *)
Definition on_user_join (sid : string) (userId : value) : M SockOutcome :=
  run connectedUsers_set userId sid then
  run set_socket_userId sid userId then
  let* n := connectedUsers_size in
  run emit ToAll "user-status" (PUserStatus userId "online" n) then
  ret Handled.

(** [socket.on('join-group', (groupId) => ...)] *)
Definition on_join_group (sid : string) (groupId : value) : M SockOutcome :=
  run socket_join sid (group_room groupId) then ret Handled.

(** [socket.on('leave-group', (groupId) => ...)] *)
Definition on_leave_group (sid : string) (groupId : value) : M SockOutcome :=
  run socket_leave sid (group_room groupId) then ret Handled.

(** [const { groupId, content } = data] throws on [undefined] and on
    [null], and on nothing else; the text is the one of the [TypeError]. *)
Definition cannot_destructure (data : json) : option string :=
  match data with
  | JScalar VUndefined =>
      Some "Cannot destructure property 'groupId' of 'data' as it is undefined."
  | JScalar VNull =>
      Some "Cannot destructure property 'groupId' of 'data' as it is null."
  | _ => None
  end.

(** [socket.on('send-group-message', (data) => ...)].  Whatever happens
    inside the [try] ends in the [catch], which reports to the sending
    socket: the destructuring of a payload that is [undefined] (an event
    without argument) or [null], and the template literal that names the
    room when [groupId] has no string conversion.  The second comes after
    [writeData]. *)
Definition on_send_group_message (env : Env) (sid : string) (data : json) : M SockOutcome :=
  match cannot_destructure data with
  | Some message =>
      run emit (ToSocket sid) "error" (PError message) then
      ret Handled
  | None =>
      let groupId := property "groupId" data in
      let content := property "content" data in
      let* messages := readData FILES_messages in
      let* userId := socket_userId sid in
      let newMessage :=
        {| m_id := e_id env;
           m_groupId := groupId;
           m_userId := userId;
           m_content := content;
           m_messageType := "text";
           m_reactions := no_reactions;
           m_isEdited := false;
           m_createdAt := e_date env 0 |} in
      run writeData env FILES_messages (messages ++ [newMessage]) then
      match json_to_string groupId with
      | Some name =>
          run emit (ToRoom (String.append "group-" name)) "new-message"
                (PNewMessage true {| mr_message := newMessage; mr_user := None |}) then
          ret Handled
      | None =>
          run emit (ToSocket sid) "error"
                (PError "Cannot convert object to primitive value") then
          ret Handled
      end
  end.

(** [socket.on('user-typing', ...)] and [socket.on('user-stop-typing', ...)] *)
Definition on_typing (isTyping : bool) (data : option TypingData) : M SockOutcome :=
  match data with
  | None => ret Uncaught
  | Some d =>
      run emit (ToRoom (group_room (ty_groupId d))) "user-typing"
            (PUserTyping (ty_username d) isTyping) then
      ret Handled
  end.

(** [socket.on('emergency-alert', (data) => ...)] *)
Definition on_emergency_alert (env : Env) (sid : string)
    (data : option AlertData) : M SockOutcome :=
  match data with
  | None => ret Uncaught
  | Some d =>
      let* userId := socket_userId sid in
      run emit ToAll "emergency-broadcast"
            (PEmergencyBroadcast
               {| eb_userId := userId;
                  eb_userName := None;
                  eb_location := ad_location d;
                  eb_message := ad_message d;
                  eb_timestamp := e_date env 0;
                  eb_emergencyId := None |}) then
      ret Handled
  end.

(** [socket.on('direct-message', (data) => ...)] *)
Definition on_direct_message (env : Env) (sid : string)
    (data : option DirectData) : M SockOutcome :=
  match data with
  | None => ret Uncaught
  | Some d =>
      let* recipientSocket := connectedUsers_get (dd_recipientId d) in
      match recipientSocket with
      | Some sock =>
          if truthy (VStr sock)
          then
            let* userId := socket_userId sid in
            run emit (ToRoom sock) "new-direct-message"
                  (PNewDirectMessage
                     {| dn_senderId := userId;
                        dn_senderName := None;
                        dn_content := dd_content d;
                        dn_timestamp := e_date env 0 |}) then
            ret Handled
          else ret Handled
      | None => ret Handled
      end
  end.

(** [socket.on('disconnect', () => ...)] *)
Definition on_disconnect (sid : string) : M SockOutcome :=
  let* userId := socket_userId sid in
  if truthy userId
  then
    run connectedUsers_delete userId then
    let* n := connectedUsers_size in
    run emit ToAll "user-status" (PUserStatus userId "offline" n) then
    ret Handled
  else ret Handled.

(** ** The dispatcher *)

Inductive Event :=
| HttpGroupMessage (req : Request)
| HttpEmergencyAlert (req : Request)
| HttpAlertResolve (req : Request)
| HttpAlertCancel (req : Request)
| HttpMessagesSend (req : Request)
| SockUserJoin (sid : string) (userId : value)
| SockJoinGroup (sid : string) (groupId : value)
| SockLeaveGroup (sid : string) (groupId : value)
| SockSendGroupMessage (sid : string) (data : json)
| SockUserTyping (sid : string) (data : option TypingData)
| SockUserStopTyping (sid : string) (data : option TypingData)
| SockEmergencyAlert (sid : string) (data : option AlertData)
| SockDirectMessage (sid : string) (data : option DirectData)
| SockDisconnect (sid : string).

Inductive Outcome :=
| Replied (resp : Response)   (* an HTTP response was sent *)
| Done                        (* a socket handler returned *)
| Crashed.                    (* an exception left a socket handler *)

Definition of_sock (o : SockOutcome) : Outcome :=
  match o with Handled => Done | Uncaught => Crashed end.

Section Dispatcher.

Variable jwt_verify : string -> option string.

Definition dispatch (env : Env) (ev : Event) : M Outcome :=
  match ev with
  | HttpGroupMessage req =>
      let* r := route jwt_verify (post_group_message env) req in ret (Replied r)
  | HttpEmergencyAlert req =>
      let* r := route jwt_verify (post_emergency_alert env) req in ret (Replied r)
  | HttpAlertResolve req =>
      let* r := route jwt_verify (post_alert_resolve env) req in ret (Replied r)
  | HttpAlertCancel req =>
      let* r := route jwt_verify (post_alert_cancel env) req in ret (Replied r)
  | HttpMessagesSend req =>
      let* r := route jwt_verify (post_messages_send env) req in ret (Replied r)
  | SockUserJoin sid userId => let* o := on_user_join sid userId in ret (of_sock o)
  | SockJoinGroup sid g => let* o := on_join_group sid g in ret (of_sock o)
  | SockLeaveGroup sid g => let* o := on_leave_group sid g in ret (of_sock o)
  | SockSendGroupMessage sid d => let* o := on_send_group_message env sid d in ret (of_sock o)
  | SockUserTyping _ d => let* o := on_typing true d in ret (of_sock o)
  | SockUserStopTyping _ d => let* o := on_typing false d in ret (of_sock o)
  | SockEmergencyAlert sid d => let* o := on_emergency_alert env sid d in ret (of_sock o)
  | SockDirectMessage sid d => let* o := on_direct_message env sid d in ret (of_sock o)
  | SockDisconnect sid => let* o := on_disconnect sid in ret (of_sock o)
  end.

(** The event loop over the requests of the dispatcher, whose handlers have
    no [await].  Requests that have arrived and not been served yet are
    pending together; any of them may be served next, and the one that is
    picked runs to completion before another one starts.  An exception that
    leaves a handler ends the run.  The loop with handlers that await is
    [schedule], further down. *)
Inductive serves : list (Env * Event) -> World -> World -> Prop :=
| serves_idle w :
    serves [] w w
| serves_next before env ev after w w1 w2 :
    dispatch env ev w = (Done, w1) \/ (exists r, dispatch env ev w = (Replied r, w1)) ->
    serves (before ++ after) w1 w2 ->
    serves (before ++ (env, ev) :: after) w w2
| serves_crash before env ev after w w1 :
    dispatch env ev w = (Crashed, w1) ->
    serves (before ++ (env, ev) :: after) w w1.

(** Serving the pending requests in the order of the list. *)
Fixpoint event_loop (pending : list (Env * Event)) (w : World) : World :=
  match pending with
  | [] => w
  | (env, ev) :: rest =>
      match dispatch env ev w with
      | (Crashed, w1) => w1
      | (_, w1) => event_loop rest w1
      end
  end.

End Dispatcher.

(** ** Reading the persisted state *)

Definition stored_messages (w : World) : list Message := default [] (d_messages (w_disk w)).
Definition stored_groups (w : World) : list Group := default [] (d_groups (w_disk w)).
Definition stored_alerts (w : World) : list Alert := default [] (d_emergency (w_disk w)).
Definition stored_directMessages (w : World) : list DirectMessage :=
  default [] (d_directMessages (w_disk w)).

(** [connectedUsers.get(userId)] *)
Definition resolve (userId : value) (w : World) : option string :=
  w_connectedUsers w !! userId.

(** The alert an id denotes: the first one of the collection that carries it. *)
Definition find_alert (id : string) (w : World) : option Alert :=
  List.find (fun a => String.eqb (a_id a) id) (stored_alerts w).

(** [messageCount] of the group an id denotes. *)
Definition stored_messageCount (id : string) (w : World) : option Z :=
  g_messageCount <$> List.find (fun g => String.eqb (g_id g) id) (stored_groups w).

Definition is_member (userId : string) (groupId : string) (w : World) : bool :=
  match List.find (fun g => String.eqb (g_id g) groupId) (stored_groups w) with
  | Some g => includes userId (g_members g)
  | None => false
  end.

Definition is_terminal (s : Status) : bool :=
  match s with
  | active => false
  | resolved | cancelled => true
  end.

(** What was added to a log since an earlier state of it. *)
Definition since {A} (old new : list A) : list A := drop (length old) new.




Definition new_message_to (room : string) (m : Message) (e : Emission) : Prop :=
  em_target e = ToRoom room /\ em_event e = "new-message" /\
  exists u, em_payload e = PNewMessage true {| mr_message := m; mr_user := u |}.

(** How one handler may change the alerts collection. *)
Inductive alerts_step (old : list Alert) : list Alert -> Prop :=
| alerts_same : alerts_step old old
| alerts_created a : alerts_step old (old ++ [a])
| alerts_resolved i a now :
    old !! i = Some a -> alerts_step old (<[i := set_resolved now a]> old)
| alerts_cancelled i a now :
    old !! i = Some a -> alerts_step old (<[i := set_cancelled now a]> old).

Definition stays_terminal (w w' : World) : Prop :=
  forall i a, stored_alerts w !! i = Some a -> is_terminal (a_status a) = true ->
    exists a', stored_alerts w' !! i = Some a' /\ a_id a' = a_id a /\
               is_terminal (a_status a') = true.

(** ** Sample data *)

Module Sample.

Definition alice : User :=
  {| u_id := "u1"; u_username := "alice"; u_email := "alice@example.org";
     u_name := "Alice"; u_avatar := "" |}.
Definition bob : User :=
  {| u_id := "u2"; u_username := "bob"; u_email := "bob@example.org";
     u_name := "Bob"; u_avatar := "" |}.

(** Group [g1]: alice is a member, bob is not. *)
Definition g1 : Group :=
  {| g_id := "g1"; g_name := "general"; g_members := ["u1"];
     g_memberCount := 1; g_messageCount := 0 |}.

Definition alert1 (s : Status) : Alert :=
  {| a_id := "a1"; a_userId := "u1"; a_status := s; a_location := [];
     a_message := VStr "help"; a_severity := VStr "high";
     a_emergencyContacts := []; a_responders := []; a_notes := "";
     a_createdAt := 10; a_resolvedAt := None; a_cancelledAt := None |}.

Definition disk0 (alerts : list Alert) : Disk :=
  {| d_users := Some [alice; bob]; d_groups := Some [g1]; d_messages := Some [];
     d_emergency := Some alerts; d_directMessages := Some [] |}.

Definition world0 (alerts : list Alert) : World :=
  {| w_disk := disk0 alerts; w_connectedUsers := ∅; w_socketUser := ∅; w_rooms := ∅;
     w_emitted := []; w_console := []; w_writes := [] |}.

Definition env0 : Env :=
  {| e_id := "id1"; e_date := fun k => 1000 + Z.of_nat k; e_write_ok := fun _ => true |}.

(** Tokens [t1] and [t2] belong to alice and bob. *)
Definition jwt0 (tok : string) : option string :=
  if String.eqb tok "t1" then Some "u1"
  else if String.eqb tok "t2" then Some "u2" else None.

Definition body0 : Body :=
  {| b_content := VStr "hi"; b_recipientId := VStr "u1"; b_message := VStr "help";
     b_location := None; b_severity := VUndefined |}.

Definition request (token id : string) : Request :=
  {| req_authorization := Some (String.append "Bearer " token); req_params_id := id;
     req_body := body0 |}.

(** bob has announced himself on socket [s2]. *)
Definition world_bob : World := snd (on_user_join "s2" (VStr "u2") (world0 [])).

(** alice has announced herself on socket [s1] and joined the room of [g1]. *)
Definition world_alice : World :=
  snd (on_join_group "s1" (VStr "g1") (snd (on_user_join "s1" (VStr "u1") (world0 [])))).

(** alice is on socket [s1] and bob on socket [s2]. *)
Definition world_both : World :=
  snd (on_user_join "s2" (VStr "u2") (snd (on_user_join "s1" (VStr "u1") (world0 [])))).

Definition hi_alice : option DirectData :=
  Some {| dd_recipientId := VStr "u1"; dd_content := VStr "hi" |}.

Definition help : option AlertData :=
  Some {| ad_location := None; ad_message := VStr "help" |}.

Definition hi : json :=
  JObject [("groupId", JScalar (VStr "g1")); ("content", JScalar (VStr "hi"))].

Definition message_hi (author : value) : Message :=
  {| m_id := "id1"; m_groupId := VStr "g1"; m_userId := author; m_content := VStr "hi";
     m_messageType := "text"; m_reactions := no_reactions; m_isEdited := false;
     m_createdAt := 1000 |}.

Definition env_id (id : string) (disk_ok : bool) : Env :=
  {| e_id := id; e_date := fun k => 1000 + Z.of_nat k; e_write_ok := fun _ => disk_ok |}.

(** Three requests to append to the messages of [g1]; the disk refuses the
    second save. *)
Definition pending : list (Env * Event) :=
  [ (env_id "m1" true, SockSendGroupMessage "s1" hi);
    (env_id "m2" false, SockSendGroupMessage "s1" hi);
    (env_id "m3" true, HttpGroupMessage (request "t1" "g1")) ].

Definition cancel_then_resolve : list (Env * Event) :=
  [ (env0, HttpAlertCancel (request "t1" "a1"));
    (env0, HttpAlertResolve (request "t2" "a1")) ].

End Sample.


(** * The rest of the message layer: listings, membership, read marks,
      predictions

    The routes that read the collections written above, the routes through
    which a user enters and leaves a group, and the prediction engine.
    A successful reply of these routes carries a list or a record of its
    own, so a handler returns either the error reply or an [Ok] with the
    status and the body. *)

From Stdlib Require Import Sorted.

Record Ok (A : Type) := {
  ok_status : Z;
  ok_message : option string;   (* the [message] string of the reply, when it has one *)
  ok_body : A
}.
Arguments ok_status {A} _.
Arguments ok_message {A} _.
Arguments ok_body {A} _.

Definition ok {A} (body : A) : Ok A :=
  {| ok_status := 200; ok_message := None; ok_body := body |}.

(** [app.get(path, authMiddleware, handler)], for these handlers. *)
Definition route_to {A} (jwt_verify : string -> option string)
    (handler : User -> Request -> M (Response + Ok A)) (req : Request)
    : M (Response + Ok A) :=
  let* a := authMiddleware jwt_verify req in
  match a with
  | inl resp => ret (inl resp)
  | inr user => handler user req
  end.

(** ** Array methods *)

(** A JavaScript number that is an integer, or [NaN] ([None]). *)
Definition num_neg (a : option Z) : option Z := Z.opp <$> a.

Definition num_sub (a b : option Z) : option Z :=
  match a, b with
  | Some x, Some y => Some (x - y)
  | _, _ => None
  end.

(** [n || undefined] *)
Definition or_undefined (a : option Z) : option (option Z) :=
  match a with
  | Some z => if z =? 0 then None else Some (Some z)
  | None => None
  end.

(** The position an argument of [slice] stands for: [NaN] is 0, a negative
    number counts from the end, and the result stays within the array. *)
Definition rel_index (len : nat) (i : option Z) : nat :=
  match i with
  | None => 0%nat
  | Some z =>
      if z <? 0 then Z.to_nat (Z.max (Z.of_nat len + z) 0)
      else Z.to_nat (Z.min z (Z.of_nat len))
  end.

(** [arr.slice(start, stop)]; [stop] is [None] when it is [undefined]. *)
Definition js_slice {A} (start : option Z) (stop : option (option Z)) (l : list A) : list A :=
  let len := length l in
  let k := rel_index len start in
  let final := match stop with
               | None => len
               | Some e => rel_index len e
               end in
  take (final - k) (drop k l).

Fixpoint sort_insert {A} (cmp : A -> A -> Z) (x : A) (l : list A) : list A :=
  match l with
  | [] => [x]
  | y :: rest => if cmp x y <=? 0 then x :: l else y :: sort_insert cmp x rest
  end.

(** [arr.sort(cmp)] for a comparator that orders the elements consistently.
    The sort is stable, which leaves one possible outcome: the one of
    inserting the elements from the last to the first, each in front of the
    first element it does not have to come after. *)
Definition js_sort {A} (cmp : A -> A -> Z) (l : list A) : list A :=
  foldr (sort_insert cmp) [] l.

(** ** ROUTES - COMMUNITY: the messages of a group *)

(** [req.query], for the properties the handlers read. *)
Record Query := {
  q_limit : option string;
  q_skip : option string;
  q_status : option string
}.


Section Listings.

(** [parseInt(s)]: the integer a string starts with, or [None] for [NaN]. *)
Variable parseInt : string -> option Z.

(** [parseInt(x)] for [const { x = dflt } = req.query]. *)
Definition query_number (dflt : Z) (q : option string) : option Z :=
  match q with
  | None => Some dflt
  | Some s => parseInt s
  end.

Definition with_author (users : list User) (m : Message) : MessageResponse :=
  {| mr_message := m;
     mr_user := Some (user_info <$>
                      List.find (fun u => strict_eq (VStr (u_id u)) (m_userId m)) users) |}.

(** [GET /api/community/groups/:id/messages]: the page and [totalMessages]. *)
Definition get_group_messages (user : User) (req : Request) (q : Query)
    : M (Response + Ok (list MessageResponse * nat)) :=
  let limit := query_number 50 (q_limit q) in
  let skip := query_number 0 (q_skip q) in
  let* messages := readData FILES_messages in
  let messages :=
    List.filter (fun m => strict_eq (m_groupId m) (VStr (req_params_id req))) messages in
  let messages := js_sort (fun a b => m_createdAt a - m_createdAt b) messages in
  let totalMessages := length messages in
  let messages :=
    js_slice (num_sub (num_neg limit) skip) (or_undefined (num_neg skip)) messages in
  (* Get user info for messages *)
  let* users := readData FILES_users in
  ret (inr (ok (map (with_author users) messages, totalMessages))).

End Listings.

(** ** ROUTES - COMMUNITY: joining and leaving a group *)

(** [users[userIndex].communityGroups.push(id)] and the [filter] that undoes
    it: [communityGroups] is not among the properties [User] keeps, so the
    record that is written back shows no change. *)
Definition push_communityGroup (groupId : string) (u : User) : User := u.
Definition drop_communityGroup (groupId : string) (u : User) : User := u.

Definition add_member (userId : string) (g : Group) : Group :=
  let members := g_members g ++ [userId] in
  {| g_id := g_id g; g_name := g_name g; g_members := members;
     g_memberCount := Z.of_nat (length members); g_messageCount := g_messageCount g |}.

Definition remove_member (userId : string) (g : Group) : Group :=
  let members := List.filter (fun id => negb (String.eqb id userId)) (g_members g) in
  {| g_id := g_id g; g_name := g_name g; g_members := members;
     g_memberCount := Z.of_nat (length members); g_messageCount := g_messageCount g |}.

(** [POST /api/community/groups/:id/join] *)
Definition post_group_join (env : Env) (user : User) (req : Request)
    : M (Response + Ok Group) :=
  let* groups := readData FILES_groups in
  match findIndex (fun g => String.eqb (g_id g) (req_params_id req)) groups with
  | None => ret (inl (reject 404 "Group not found"))
  | Some groupIndex =>
      match groups !! groupIndex with
      | None => ret (inl (reject 500 "Cannot read properties of undefined"))  (* the catch branch *)
      | Some group =>
          if includes (u_id user) (g_members group)
          then ret (inl (reject 400 "Already a member of this group"))
          else
            run writeData env FILES_groups
                  (<[groupIndex := add_member (u_id user) group]> groups) then
            (* Add to user's community groups *)
            let* users := readData FILES_users in
            run match findIndex (fun u => String.eqb (u_id u) (u_id user)) users with
                | Some userIndex =>
                    run writeData env FILES_users
                          (alter (push_communityGroup (req_params_id req)) userIndex users)
                    then ret tt
                | None => ret tt
                end then
            ret (inr {| ok_status := 200; ok_message := Some "Successfully joined group";
                        ok_body := add_member (u_id user) group |})
      end
  end.

(** [POST /api/community/groups/:id/leave] *)
Definition post_group_leave (env : Env) (user : User) (req : Request) : M Response :=
  let* groups := readData FILES_groups in
  match findIndex (fun g => String.eqb (g_id g) (req_params_id req)) groups with
  | None => ret (reject 404 "Group not found")
  | Some groupIndex =>
      match groups !! groupIndex with
      | None => ret (reject 500 "Cannot read properties of undefined")  (* the catch branch *)
      | Some group =>
          run writeData env FILES_groups
                (<[groupIndex := remove_member (u_id user) group]> groups) then
          (* Remove from user's community groups *)
          let* users := readData FILES_users in
          run match findIndex (fun u => String.eqb (u_id u) (u_id user)) users with
              | Some userIndex =>
                  run writeData env FILES_users
                        (alter (drop_communityGroup (req_params_id req)) userIndex users)
                  then ret tt
              | None => ret tt
              end then
          ret {| r_status := 200; r_success := true; r_message := "Successfully left group";
                 r_data := DNone |}
      end
  end.

(** ** ROUTES - EMERGENCY: reading the alerts *)

(** The string a status is stored as. *)
Definition status_name (s : Status) : string :=
  match s with
  | active => "active"
  | resolved => "resolved"
  | cancelled => "cancelled"
  end.

(** [GET /api/emergency/alerts] *)
Definition get_alerts (user : User) (req : Request) (q : Query)
    : M (Response + Ok (list Alert)) :=
  let* alerts := readData FILES_emergency in
  let alerts := List.filter (fun a => String.eqb (a_userId a) (u_id user)) alerts in
  let alerts :=
    match q_status q with
    | Some status =>
        if truthy (VStr status)
        then List.filter (fun a => String.eqb (status_name (a_status a)) status) alerts
        else alerts
    | None => alerts
    end in
  let alerts := js_sort (fun a b => a_createdAt b - a_createdAt a) alerts in
  let alerts := js_slice (Some 0) (Some (Some 50)) alerts in
  ret (inr (ok alerts)).

Record UserBrief := {
  ub_id : string;
  ub_username : string;
  ub_name : string
}.

Definition user_brief (u : User) : UserBrief :=
  {| ub_id := u_id u; ub_username := u_username u; ub_name := u_name u |}.

(** [GET /api/emergency/alerts/:id]: the alert and its [user] property. *)
Definition get_alert (user : User) (req : Request)
    : M (Response + Ok (Alert * option UserBrief)) :=
  let* alerts := readData FILES_emergency in
  match List.find (fun a => String.eqb (a_id a) (req_params_id req)) alerts with
  | None => ret (inl (reject 404 "Alert not found"))
  | Some alert =>
      if negb (String.eqb (a_userId alert) (u_id user))
      then ret (inl (reject 404 "Alert not found"))
      else
        (* Get user info *)
        let* users := readData FILES_users in
        let owner := List.find (fun u => String.eqb (u_id u) (a_userId alert)) users in
        ret (inr (ok (alert, user_brief <$> owner)))
  end.

(** ** ROUTES - DIRECT MESSAGES: the conversation and the read mark *)

(** The test of the [filter] in the conversation route. *)
Definition between (me other : string) (m : DirectMessage) : bool :=
  (String.eqb (dm_sender m) me && strict_eq (dm_recipient m) (VStr other))
  || (String.eqb (dm_sender m) other && strict_eq (dm_recipient m) (VStr me)).

(** [GET /api/messages/conversation/:userId]; the route parameter, here
    [:userId], is [req_params_id]. *)
Definition get_conversation (user : User) (req : Request)
    : M (Response + Ok (list DirectMessage)) :=
  let* messages := readData FILES_directMessages in
  let messages := List.filter (between (u_id user) (req_params_id req)) messages in
  let messages := js_sort (fun a b => dm_createdAt a - dm_createdAt b) messages in
  let messages := js_slice (Some (-50)) None messages in
  ret (inr (ok messages)).

Definition set_read (m : DirectMessage) : DirectMessage :=
  {| dm_id := dm_id m; dm_sender := dm_sender m; dm_recipient := dm_recipient m;
     dm_content := dm_content m; dm_isRead := true; dm_createdAt := dm_createdAt m |}.

(** [POST /api/messages/:id/read] *)
Definition post_message_read (env : Env) (user : User) (req : Request)
    : M (Response + Ok DirectMessage) :=
  let* directMessages := readData FILES_directMessages in
  match findIndex (fun m => String.eqb (dm_id m) (req_params_id req)) directMessages with
  | None => ret (inl (reject 404 "Message not found"))
  | Some messageIndex =>
      match directMessages !! messageIndex with
      | None => ret (inl (reject 500 "Cannot set properties of undefined"))  (* the catch branch *)
      | Some m =>
          run writeData env FILES_directMessages (<[messageIndex := set_read m]> directMessages)
          then ret (inr (ok (set_read m)))
      end
  end.

(** ** Prediction Engine *)

Record Phrase := {
  p_id : string;
  p_userId : string;
  p_text : string;
  p_language : string;
  p_category : string;
  p_priority : Z;
  p_usageCount : Z;
  p_lastUsed : option Z;
  p_tags : list string;
  p_isPublic : bool;
  p_createdAt : Z;
  p_updatedAt : Z
}.

(** [this.commonPhrases], in the order [Object.entries] goes through it. *)
Definition commonPhrases : list (string * list string) :=
  [ ("hello", ["How are you?"; "Nice to meet you"; "What is your name?"; "How can I help?"]);
    ("thank", ["You are welcome"; "No problem"; "Happy to help"; "Anytime"]);
    ("help", ["What do you need?"; "I can help you"; "How can I assist?"; "Tell me more"]);
    ("good", ["I am fine"; "Things are going well"; "Everything is great"; "I am happy"]);
    ("sorry", ["No worries"; "It is okay"; "No problem"; "Do not worry about it"]);
    ("yes", ["I agree"; "That sounds good"; "I like that idea"; "Let us do it"]);
    ("no", ["I do not agree"; "Not right now"; "Maybe later"; "I prefer not to"]);
    ("how", ["I am doing well"; "Everything is great"; "Could be better"; "Excellent"]);
    ("what", ["Tell me more"; "I understand"; "Can you explain?"; "I need clarification"]);
    ("where", ["Over there"; "Not sure"; "Can you point?"; "Let me check"]) ].

(** [s.includes(sub)] on strings *)
Fixpoint js_includes (s sub : string) : bool :=
  if String.prefix sub s then true
  else match s with
       | EmptyString => false
       | String _ rest => js_includes rest sub
       end.

(** [[...new Set(arr)]]: the elements in the order of their first
    occurrence. *)
Fixpoint set_values (seen arr : list string) : list string :=
  match arr with
  | [] => []
  | x :: rest =>
      if includes x seen then set_values seen rest
      else x :: set_values (x :: seen) rest
  end.

(** The phrases the prediction route hands to the engine: the caller's ten
    most used ones. *)
Definition frequentPhrases (user : User) (phrases : list Phrase) : list Phrase :=
  js_slice (Some 0) (Some (Some 10))
    (js_sort (fun a b => p_usageCount b - p_usageCount a)
       (List.filter (fun p => String.eqb (p_userId p) (u_id user)) phrases)).

Section Prediction.

(** [s.toLowerCase()] *)
Variable toLowerCase : string -> string.

Definition matching (lastWord : string) : list string :=
  foldl (fun suggestions entry =>
           if js_includes lastWord (fst entry) || js_includes (fst entry) lastWord
           then suggestions ++ snd entry else suggestions)
        [] commonPhrases.

Definition push_new (suggestions : list string) (phrase : Phrase) : list string :=
  if negb (includes (p_text phrase) suggestions)
  then suggestions ++ [p_text phrase] else suggestions.

(** [predictionEngine.predict(text, userPhrases)] *)
Definition predict (text : string) (userPhrases : list Phrase) : list string :=
  let words := split_space (toLowerCase text) in
  let lastWord := List.last words "" in
  let suggestions := matching lastWord in
  let suggestions :=
    foldl push_new suggestions (js_slice (Some 0) (Some (Some 3)) userPhrases) in
  js_slice (Some 0) (Some (Some 5)) (set_values [] suggestions).

End Prediction.

(** ** ROUTES - USERS: registration *)

(** The body of a registration.  The three fields are strings; one that is
    absent is read as the empty string, which is falsy as [undefined] is. *)
Record RegisterBody := {
  rb_username : string;
  rb_email : string;
  rb_password : string
}.

(** Where a registration stands.  The handler is an [async] function: it
    runs up to an [await], gives the event loop back, and is resumed when
    the promise is settled.  What it read before is still in its local
    variable [users] then. *)
Inductive Stage :=
| Fresh                           (* not started *)
| Salting (users : list User)     (* at [await bcryptjs.genSalt(10)] *)
| Hashing (users : list User).    (* at [await bcryptjs.hash(password, salt)] *)

(** A registration answers with an error reply, or with the token and the
    user. *)
Definition Registered : Type := Response + Ok (string * User).

Section Registration.

(** [jwt.sign({ userId }, secret, { expiresIn: '7d' })] *)
Variable jwt_sign : string -> string.

(** [POST /api/users/register], from the stage it is at to its next [await]
    or to its reply.  Of the new user the properties of [User] are kept;
    the hashed password is not among them. *)
Definition post_users_register (env : Env) (body : RegisterBody) (stage : Stage)
    : M (Registered + Stage) :=
  let username := rb_username body in
  let email := rb_email body in
  let password := rb_password body in
  match stage with
  | Fresh =>
      if negb (truthy (VStr username)) || negb (truthy (VStr email))
         || negb (truthy (VStr password))
      then ret (inl (inl (reject 400 "Username, email, and password are required")))
      else
        let* users := readData FILES_users in
        match List.find (fun u => String.eqb (u_email u) email
                                  || String.eqb (u_username u) username) users with
        | Some _ => ret (inl (inl (reject 400 "Email or username already exists")))
        | None => ret (inr (Salting users))
        end
  | Salting users => ret (inr (Hashing users))
  | Hashing users =>
      let newUser :=
        {| u_id := e_id env; u_username := username; u_email := email;
           u_name := username; u_avatar := "" |} in
      run writeData env FILES_users (users ++ [newUser]) then
      let token := jwt_sign (u_id newUser) in
      ret (inl (inr {| ok_status := 201;
                       ok_message := Some "User registered successfully";
                       ok_body := (token, newUser) |}))
  end.

End Registration.

(** ** Requests in flight *)

Inductive Call :=
| Handle (ev : Event)             (* a request or a socket event of the dispatcher *)
| Register (body : RegisterBody).

Inductive Answer :=
| Served (o : Outcome)
| Enrolled (r : Registered).

Record Job := {
  j_env : Env;
  j_call : Call;
  j_stage : Stage
}.

(** The requests that have arrived and are not answered yet, the answers
    given so far, oldest first, and whether an exception has ended the
    process. *)
Record Loop := {
  l_waiting : list Job;
  l_answered : list (Env * Call * Answer);
  l_world : World;
  l_down : bool
}.

Definition is_crash (a : Answer) : bool :=
  match a with
  | Served Crashed => true
  | _ => false
  end.

Section Loop.

Variable jwt_verify : string -> option string.
Variable jwt_sign : string -> string.

(** One turn of a job.  A handler of the dispatcher has no [await]: it runs
    from its first line to its last.  A registration runs to its next
    [await], or to its reply. *)
Definition advance (job : Job) : M (Answer + Stage) :=
  match j_call job with
  | Handle ev =>
      let* o := dispatch jwt_verify (j_env job) ev in
      ret (inl (Served o))
  | Register body =>
      let* r := post_users_register jwt_sign (j_env job) body (j_stage job) in
      match r with
      | inl reply => ret (inl (Enrolled reply))
      | inr stage => ret (inr stage)
      end
  end.

(** The event loop gives the next turn to the [i]-th of the waiting jobs. *)
Definition turn (s : Loop) (i : nat) : Loop :=
  if l_down s then s
  else
    match l_waiting s !! i with
    | None => s
    | Some job =>
        match advance job (l_world s) with
        | (inl answer, w) =>
            {| l_waiting := delete i (l_waiting s);
               l_answered := l_answered s ++ [(j_env job, j_call job, answer)];
               l_world := w;
               l_down := is_crash answer |}
        | (inr stage, w) =>
            {| l_waiting := <[i := {| j_env := j_env job; j_call := j_call job;
                                     j_stage := stage |}]> (l_waiting s);
               l_answered := l_answered s;
               l_world := w;
               l_down := false |}
        end
    end.

(** The turns are given in any order: [picks] is the order. *)
Definition schedule (picks : list nat) (s : Loop) : Loop := fold_left turn picks s.

End Loop.

Definition arrivals (requests : list (Env * Call)) (w : World) : Loop :=
  {| l_waiting := map (fun r => {| j_env := fst r; j_call := snd r; j_stage := Fresh |}) requests;
     l_answered := [];
     l_world := w;
     l_down := false |}.

(** Does the answer tell that the request appended a record to the file?
    The routes that append answer 201 when they have got as far as the
    save, and only then; [send-group-message] gets there whenever its
    payload can be destructured. *)
Definition appended_to (k : FileKey) (call : Call) (answer : Answer) : bool :=
  match k, call, answer with
  | FMessages, Handle (HttpGroupMessage _), Served (Replied r) => r_status r =? 201
  | FMessages, Handle (SockSendGroupMessage _ data), Served Done =>
      match cannot_destructure data with
      | Some _ => false
      | None => true
      end
  | FEmergency, Handle (HttpEmergencyAlert _), Served (Replied r) => r_status r =? 201
  | FDirectMessages, Handle (HttpMessagesSend _), Served (Replied r) => r_status r =? 201
  | FUsers, Register _, Enrolled (inr _) => true
  | _, _, _ => false
  end.

Definition appends (k : FileKey) (answered : list (Env * Call * Answer)) : nat :=
  length (List.filter (fun a => appended_to k (snd (fst a)) (snd a)) answered).


(** ** What the listings and the membership routes keep *)

(** The count of a group is the number of its members, which are distinct. *)
Definition group_in_order (g : Group) : Prop :=
  g_memberCount g = Z.of_nat (length (g_members g)) /\ NoDup (g_members g).

Definition groups_in_order (w : World) : Prop :=
  Forall group_in_order (stored_groups w).

Definition stored_users (w : World) : list User := default [] (d_users (w_disk w)).

(** The messages of a group in the order of the listing. *)
Definition group_history (id : string) (w : World) : list Message :=
  js_sort (fun a b => m_createdAt a - m_createdAt b)
    (List.filter (fun m => strict_eq (m_groupId m) (VStr id)) (stored_messages w)).

(** The messages a listing request gets back. *)
Definition listed_messages (parseInt : string -> option Z) (user : User) (req : Request)
    (q : Query) (w : World) : list Message :=
  match fst (get_group_messages parseInt user req q w) with
  | inr reply => map mr_message (fst (ok_body reply))
  | inl _ => []
  end.

(** The direct messages between two users in the order of the conversation. *)
Definition thread (me other : string) (w : World) : list DirectMessage :=
  js_sort (fun a b => dm_createdAt a - dm_createdAt b)
    (List.filter (between me other) (stored_directMessages w)).

(** The messages a conversation request gets back. *)
Definition conversation_of (user : User) (req : Request) (w : World) : list DirectMessage :=
  match fst (get_conversation user req w) with
  | inr reply => ok_body reply
  | inl _ => []
  end.

(** Everything of the world but the console. *)
Definition same_but_console (w w' : World) : Prop :=
  w_disk w' = w_disk w /\ w_connectedUsers w' = w_connectedUsers w /\
  w_socketUser w' = w_socketUser w /\ w_rooms w' = w_rooms w /\
  w_emitted w' = w_emitted w /\ w_writes w' = w_writes w.

Definition is_http (ev : Event) : option Request :=
  match ev with
  | HttpGroupMessage req | HttpEmergencyAlert req | HttpAlertResolve req
  | HttpAlertCancel req | HttpMessagesSend req => Some req
  | _ => None
  end.

(** The phrases the engine knows by itself. *)
Definition built_in (s : string) : Prop :=
  exists key values, In (key, values) commonPhrases /\ In s values.

(** A string without a space in it. *)
Fixpoint one_word (s : string) : bool :=
  match s with
  | EmptyString => true
  | String c rest => negb (Ascii.eqb c " "%char) && one_word rest
  end.

(** ** What the appends and the failed saves leave *)



(** ** More sample data *)

Module Sample2.


(** bob has sent "hi" to alice over HTTP. *)
Definition world_hi : World :=
  snd (post_messages_send Sample.env0 Sample.bob (Sample.request "t2" "") Sample.world_both).

Definition hi_to_alice : DirectMessage :=
  {| dm_id := "id1"; dm_sender := "u2"; dm_recipient := VStr "u1"; dm_content := VStr "hi";
     dm_isRead := false; dm_createdAt := 1000 |}.

Definition phrase (owner text : string) (uses : Z) : Phrase :=
  {| p_id := text; p_userId := owner; p_text := text; p_language := "en-US";
     p_category := "custom"; p_priority := 0; p_usageCount := uses; p_lastUsed := None;
     p_tags := []; p_isPublic := false; p_createdAt := 0; p_updatedAt := 0 |}.

Definition phrases : list Phrase :=
  [ phrase "u1" "Water please" 2; phrase "u2" "Call my sister" 9;
    phrase "u1" "I am cold" 5; phrase "u1" "Open the window" 1;
    phrase "u1" "Water please" 4 ].

Definition sign (userId : string) : string := String.append "token-" userId.

(** dan and eve register at the same time. *)
Definition dan : RegisterBody :=
  {| rb_username := "dan"; rb_email := "dan@example.org"; rb_password := "secret" |}.
Definition eve : RegisterBody :=
  {| rb_username := "eve"; rb_email := "eve@example.org"; rb_password := "hidden" |}.


(** The payload of a [send-group-message] whose [groupId] is an object with
    a property [toString]. *)
Definition odd_group_id : json :=
  JObject [ ("groupId", JObject [("toString", JScalar (VNum 1))]);
            ("content", JScalar (VStr "hi")) ].

End Sample2.

Module Sample3.

(** Requests in flight together: two group messages, an alert, a direct
    message and two registrations. *)
Definition in_flight : list (Env * Call) :=
  [ (Sample.env_id "m1" true, Handle (SockSendGroupMessage "s1" Sample.hi));
    (Sample.env_id "u4" true, Register Sample2.dan);
    (Sample.env_id "m2" true, Handle (HttpGroupMessage (Sample.request "t1" "g1")));
    (Sample.env_id "a2" true, Handle (HttpEmergencyAlert (Sample.request "t2" "")));
    (Sample.env_id "u5" true, Register Sample2.eve);
    (Sample.env_id "d1" true, Handle (HttpMessagesSend (Sample.request "t2" "")));
    (Sample.env_id "m3" true, Handle (HttpGroupMessage (Sample.request "t2" "g1"))) ].

(** An order of the turns in which the registrations are cut by the other
    requests and by each other. *)
Definition order : list nat := [1; 4; 0; 0; 2; 3; 0; 0; 1; 1; 0; 0]%nat.

End Sample3.

(** A reading of plain decimal numbers, to run the listings on examples. *)
Definition digit_of (c : ascii) : option Z :=
  let n := nat_of_ascii c in
  if (48 <=? n)%nat && (n <=? 57)%nat then Some (Z.of_nat (n - 48)) else None.

Fixpoint digits (acc : option Z) (s : string) : option Z :=
  match s with
  | EmptyString => acc
  | String c rest =>
      match digit_of c with
      | Some d => digits (Some (10 * default 0 acc + d)) rest
      | None => acc
      end
  end.

Definition parse_decimal (s : string) : option Z :=
  match s with
  | String "-"%char rest => Z.opp <$> digits None rest
  | _ => digits None s
  end.

(** ASCII lower case, to run the engine on examples. *)
Definition ascii_lower (c : ascii) : ascii :=
  let n := nat_of_ascii c in
  if (65 <=? n)%nat && (n <=? 90)%nat then ascii_of_nat (n + 32) else c.

Fixpoint lower (s : string) : string :=
  match s with
  | EmptyString => EmptyString
  | String c rest => String (ascii_lower c) (lower rest)
  end.

(** ** Running a handler symbolically *)

#[local] Arguments truthy : simpl never.
#[local] Arguments number_to_string : simpl never.
#[local] Arguments String.eqb : simpl never.

Ltac unfold_handlers :=
  unfold dispatch, route, authMiddleware, post_group_message, post_emergency_alert,
    post_alert_resolve, post_alert_cancel, post_messages_send, on_user_join,
    on_join_group, on_leave_group, on_send_group_message, on_typing,
    on_emergency_alert, on_direct_message, on_disconnect, of_sock in *.

Ltac unfold_monad :=
  unfold bind, ret, readData, writeData, log, emit, record_write, set_disk,
    connectedUsers_get, connectedUsers_size, connectedUsers_set,
    connectedUsers_delete, set_socket_userId, socket_userId, socket_join,
    socket_leave in *.

Ltac branches :=
  simpl in *; repeat (case_match; simplify_eq; simpl in *); simplify_eq; simpl in *.

Ltac run_handler := unfold_handlers; unfold_monad; branches.

Ltac open_world w :=
  let du := fresh "users" in
  let dg := fresh "groups" in
  let dm := fresh "messages" in
  let de := fresh "alerts" in
  let dd := fresh "directs" in
  destruct w as [[du dg dm de dd] ? ? ? ? ? ?].


(** * Properties *)

(** ** Logs *)







(** ** Comparing with a scalar *)

Lemma strict_eq_scalar (a : json) (v : value) :
  strict_eq a (JScalar v) = true <-> a = JScalar v.
Proof.
  destruct a as [x| |]; simpl; [|by split..].
  rewrite bool_decide_eq_true. split; congruence.
Qed.

Lemma strict_eq_scalars (x y : value) :
  strict_eq (JScalar x) (JScalar y) = bool_decide (x = y).
Proof. reflexivity. Qed.

(** ** The event loop *)

Lemma event_loop_serves jwt pending w : serves jwt pending w (event_loop jwt pending w).
Proof.
  revert w. induction pending as [|[env ev] rest IH]; intros w; simpl.
  - constructor.
  - destruct (dispatch jwt env ev w) as [o w1] eqn:E.
    destruct o.
    + apply (serves_next jwt [] env ev rest w w1); [right; eauto | apply IH].
    + apply (serves_next jwt [] env ev rest w w1); [by left | apply IH].
    + by apply (serves_crash jwt [] env ev rest w w1).
Qed.

(** A property of the world that every handler carries from the state it
    starts in to the state it ends in holds along the whole run. *)
Lemma serves_ind_step jwt (R : World -> World -> Prop) :
  (forall w, R w w) ->
  (forall w1 w2 w3, R w1 w2 -> R w2 w3 -> R w1 w3) ->
  (forall env ev w o w1, dispatch jwt env ev w = (o, w1) -> R w w1) ->
  forall pending w w', serves jwt pending w w' -> R w w'.
Proof.
  intros Hrefl Htrans Hstep pending w w' Hrun.
  induction Hrun as [w | before env ev after w w1 w2 Hd _ IH | before env ev after w w1 Hd].
  - apply Hrefl.
  - apply Htrans with w1; [|exact IH].
    destruct Hd as [Hd | [r Hd]]; eapply Hstep; exact Hd.
  - eapply Hstep; exact Hd.
Qed.

(** ** What one handler does to the alerts file *)

Lemma dispatch_alerts jwt env ev w o w1 :
  dispatch jwt env ev w = (o, w1) ->
  alerts_step (stored_alerts w) (stored_alerts w1).
Proof.
  intros H. unfold stored_alerts.
  open_world w.
  destruct ev; run_handler;
    first [ apply alerts_same | apply alerts_created with (old := [])
          | apply alerts_created | by eapply alerts_resolved | by eapply alerts_cancelled ].
Qed.

Lemma alerts_step_terminal old new i a :
  alerts_step old new ->
  old !! i = Some a -> is_terminal (a_status a) = true ->
  exists a', new !! i = Some a' /\ a_id a' = a_id a /\ is_terminal (a_status a') = true.
Proof.
  intros Hstep Hi Ht. destruct Hstep as [ | a0 | j a0 now Hj | j a0 now Hj ].
  - by exists a.
  - exists a. split; [|done]. by apply lookup_app_l_Some.
  - destruct (decide (j = i)) as [->|Hne].
    + exists (set_resolved now a0). rewrite list_lookup_insert_eq by (by eapply lookup_lt_Some).
      split; [done|]. simpl. split; [congruence | done].
    + exists a. by rewrite list_lookup_insert_ne.
  - destruct (decide (j = i)) as [->|Hne].
    + exists (set_cancelled now a0). rewrite list_lookup_insert_eq by (by eapply lookup_lt_Some).
      split; [done|]. simpl. split; [congruence | done].
    + exists a. by rewrite list_lookup_insert_ne.
Qed.

Lemma stays_terminal_refl w : stays_terminal w w.
Proof. intros i a Hi Ht. by exists a. Qed.

Lemma stays_terminal_trans w1 w2 w3 :
  stays_terminal w1 w2 -> stays_terminal w2 w3 -> stays_terminal w1 w3.
Proof.
  intros H12 H23 i a Hi Ht.
  destruct (H12 i a Hi Ht) as (a2 & Hi2 & Hid2 & Ht2).
  destruct (H23 i a2 Hi2 Ht2) as (a3 & Hi3 & Hid3 & Ht3).
  exists a3. split; [done|]. split; [congruence | done].
Qed.

(** ** C3: appends to one collection *)











(** In that run every request is answered; two of the three group messages
    are appended (bob, who is not a member, gets a 403), and so are the
    alert and the direct message. *)
Example requests_in_flight :
  let s := schedule Sample.jwt0 Sample2.sign Sample3.order
             (arrivals Sample3.in_flight Sample.world_alice) in
  l_waiting s = [] /\
  m_id <$> stored_messages (l_world s) = ["m1"; "m2"] /\
  appends FMessages (l_answered s) = 2%nat /\
  a_id <$> stored_alerts (l_world s) = ["a2"] /\
  dm_id <$> stored_directMessages (l_world s) = ["d1"].
Proof. vm_compute. done. Qed.


(** ** C4: the status of an emergency alert *)

(** C4, as amended. An alert whose status is resolved or cancelled never
    goes back to active: along every run of the event loop it stays at the
    same place of the collection, keeps its id, and its status stays within
    resolved and cancelled. *)
Theorem terminal_alert_never_reactivated jwt pending w w' i a :
  serves jwt pending w w' ->
  stored_alerts w !! i = Some a ->
  is_terminal (a_status a) = true ->
  exists a', stored_alerts w' !! i = Some a' /\ a_id a' = a_id a /\
             is_terminal (a_status a') = true.
Proof.
  intros Hrun. revert i a.
  change (stays_terminal w w').
  revert pending w w' Hrun.
  apply (serves_ind_step jwt stays_terminal).
  - apply stays_terminal_refl.
  - apply stays_terminal_trans.
  - intros env ev w o w1 Hd i a Hi Ht.
    eapply alerts_step_terminal; [by eapply dispatch_alerts | done | done].
Qed.

Lemma terminal_alert_never_reactivated_witness :
  exists a', stored_alerts (event_loop Sample.jwt0 Sample.cancel_then_resolve
                              (Sample.world0 [Sample.alert1 resolved])) !! 0%nat = Some a' /\
             a_id a' = a_id (Sample.alert1 resolved) /\
             is_terminal (a_status a') = true.
Proof.
  apply (terminal_alert_never_reactivated Sample.jwt0 Sample.cancel_then_resolve
           (Sample.world0 [Sample.alert1 resolved]) _ 0%nat (Sample.alert1 resolved)).
  - apply event_loop_serves.
  - reflexivity.
  - reflexivity.
Defined.

(** C4, as stated, fails: the owner's cancel turns a resolved alert into a
    cancelled one, and anybody's resolve turns a cancelled alert into a
    resolved one. *)
Lemma terminal_status_is_overwritten :
  a_status <$> stored_alerts (Sample.world0 [Sample.alert1 resolved]) !! 0%nat = Some resolved /\
  a_status <$> stored_alerts
     (snd (dispatch Sample.jwt0 Sample.env0 (HttpAlertCancel (Sample.request "t1" "a1"))
             (Sample.world0 [Sample.alert1 resolved]))) !! 0%nat = Some cancelled /\
  a_status <$> stored_alerts (Sample.world0 [Sample.alert1 cancelled]) !! 0%nat = Some cancelled /\
  a_status <$> stored_alerts
     (snd (dispatch Sample.jwt0 Sample.env0 (HttpAlertResolve (Sample.request "t2" "a1"))
             (Sample.world0 [Sample.alert1 cancelled]))) !! 0%nat = Some resolved.
Proof. vm_compute. done. Qed.

(** ** C7 and C8: the presence table *)

Lemma user_join_presence (c : string) (u : value) (w : World) :
  w_connectedUsers (snd (on_user_join c u w)) = <[u := c]> (w_connectedUsers w).
Proof. reflexivity. Qed.

Lemma user_join_socket (c : string) (u : value) (w : World) :
  w_socketUser (snd (on_user_join c u w)) = <[c := u]> (w_socketUser w).
Proof. reflexivity. Qed.

Lemma user_join_keeps_disk (c : string) (u : value) (w : World) :
  w_disk (snd (on_user_join c u w)) = w_disk w.
Proof. reflexivity. Qed.

Lemma disconnect_identified (c : string) (u : value) (w : World) :
  w_socketUser w !! c = Some u -> truthy u = true ->
  let w' := snd (on_disconnect c w) in
  w_connectedUsers w' = delete u (w_connectedUsers w) /\
  w_emitted w' = w_emitted w ++
    [ {| em_target := ToAll; em_event := "user-status";
         em_payload := PUserStatus u "offline" (size (w_connectedUsers w')) |} ].
Proof.
  intros Hc Hu. unfold on_disconnect. unfold_monad. simpl.
  rewrite Hc. simpl. rewrite Hu. done.
Qed.

Lemma disconnect_unidentified (c : string) (w : World) :
  truthy (default VUndefined (w_socketUser w !! c)) = false ->
  on_disconnect c w = (Handled, w).
Proof.
  intros Hu. unfold on_disconnect. unfold_monad. simpl. by rewrite Hu.
Qed.

(** C7. After [user-join] of [u] on connection [c1] and then on connection
    [c2], [connectedUsers.get(u)] is [c2] and not [c1]; the second announce
    takes the place of the first entry, it adds none. *)
Theorem second_announce_replaces (u : value) (c1 c2 : string) (w : World) :
  let w1 := snd (on_user_join c1 u w) in
  let w2 := snd (on_user_join c2 u w1) in
  resolve u w1 = Some c1 /\
  resolve u w2 = Some c2 /\
  (c1 <> c2 -> resolve u w2 <> Some c1) /\
  size (w_connectedUsers w2) = size (w_connectedUsers w1) /\
  w_connectedUsers w2 = <[u := c2]> (w_connectedUsers w).
Proof.
  intros w1 w2. unfold resolve. subst w1 w2.
  rewrite !user_join_presence, !lookup_insert_eq, insert_insert_eq.
  repeat split; try congruence.
  rewrite !map_size_insert. by destruct (w_connectedUsers w !! u).
Qed.

Lemma second_announce_replaces_witness :
  "s1" <> "s2" /\
  resolve (VStr "u1")
    (snd (on_user_join "s2" (VStr "u1")
            (snd (on_user_join "s1" (VStr "u1") (Sample.world0 []))))) <> Some "s1".
Proof.
  split.
  - discriminate.
  - apply (proj1 (proj2 (proj2 (second_announce_replaces (VStr "u1") "s1" "s2"
                                    (Sample.world0 []))))).
    discriminate.
Defined.

(** The route that sends a direct message resolves the recipient through the
    same table, so after the two announces it reaches [c2]. *)
Lemma direct_message_reaches_latest env user req (u : value) (c1 c2 : string) (w : World) :
  b_recipientId (req_body req) = u ->
  truthy u = true -> truthy (b_content (req_body req)) = true -> c2 <> "" ->
  let w2 := snd (on_user_join c2 u (snd (on_user_join c1 u w))) in
  exists e, w_emitted (snd (post_messages_send env user req w2)) = w_emitted w2 ++ [e] /\
            em_target e = ToRoom c2 /\ em_event e = "new-direct-message".
Proof.
  intros Hu Htu Htc Hc2 w2.
  assert (w_connectedUsers w2 !! u = Some c2) as Hget.
  { subst w2. rewrite user_join_presence. apply lookup_insert_eq. }
  assert (truthy (VStr c2) = true) as Hs.
  { unfold truthy. by apply negb_true_iff, String.eqb_neq. }
  clearbody w2. subst u.
  unfold post_messages_send. unfold_monad. simpl.
  rewrite Htu, Htc. simpl.
  destruct (e_write_ok env FDirectMessages), (d_directMessages (w_disk w2)); simpl;
    rewrite Hget; simpl; rewrite Hs; simpl; eexists; split; try reflexivity; done.
Qed.

(** C8. [u] announces on [c1], then on [c2]; when [c1] disconnects, the entry
    of [u], which points to [c2], is deleted and the offline status goes out
    to everybody.  [u] is an actual user id: a value JavaScript takes as
    true, which every id made by [generateId] is. *)
Theorem stale_disconnect_drops_presence (u : value) (c1 c2 : string) (w : World) :
  truthy u = true ->
  let w2 := snd (on_user_join c2 u (snd (on_user_join c1 u w))) in
  let w3 := snd (on_disconnect c1 w2) in
  resolve u w2 = Some c2 /\
  resolve u w3 = None /\
  w_emitted w3 = w_emitted w2 ++
    [ {| em_target := ToAll; em_event := "user-status";
         em_payload := PUserStatus u "offline" (size (w_connectedUsers w3)) |} ].
Proof.
  intros Hu w2 w3.
  assert (w_socketUser w2 !! c1 = Some u) as Hsock.
  { subst w2. rewrite !user_join_socket.
    destruct (decide (c2 = c1)) as [->|Hne].
    - apply lookup_insert_eq.
    - rewrite lookup_insert_ne by done. apply lookup_insert_eq. }
  assert (resolve u w2 = Some c2) as Hget.
  { subst w2. unfold resolve. rewrite user_join_presence. apply lookup_insert_eq. }
  clearbody w2.
  destruct (disconnect_identified c1 u w2 Hsock Hu) as [Hdel Hem].
  fold w3 in Hdel, Hem. clearbody w3.
  split; [done|]. split; [|done].
  unfold resolve. rewrite Hdel. apply lookup_delete_eq.
Qed.

Lemma stale_disconnect_drops_presence_witness :
  truthy (VStr "u1") = true /\
  resolve (VStr "u1")
    (snd (on_disconnect "s1"
            (snd (on_user_join "s2" (VStr "u1")
                    (snd (on_user_join "s1" (VStr "u1") (Sample.world0 []))))))) = None.
Proof.
  split.
  - reflexivity.
  - apply (stale_disconnect_drops_presence (VStr "u1") "s1" "s2" (Sample.world0 [])).
    reflexivity.
Defined.

(** An identity JavaScript takes as false (the empty string, [0], [null], a
    missing argument) is entered by [user-join] but never removed by
    [disconnect]. *)
Lemma falsy_identity_is_not_removed (u : value) (c : string) (w : World) :
  truthy u = false ->
  let w1 := snd (on_user_join c u w) in
  on_disconnect c w1 = (Handled, w1) /\ resolve u w1 = Some c.
Proof.
  intros Hu w1. split.
  - apply disconnect_unidentified. subst w1.
    rewrite user_join_socket, lookup_insert_eq. done.
  - subst w1. unfold resolve. rewrite user_join_presence. apply lookup_insert_eq.
Qed.

(** ** Arrays: [find], [findIndex] and the update at the index found *)

Lemma find_findIndex {A} (p : A -> bool) (l : list A) (a : A) :
  List.find p l = Some a ->
  exists i, findIndex p l = Some i /\ l !! i = Some a /\ p a = true.
Proof.
  induction l as [|x l IH]; simpl; [done|].
  destruct (p x) eqn:Hp.
  - intros [= ->]. by exists 0%nat.
  - intros Hf. destruct (IH Hf) as (i & Hi & Hl & Ha).
    exists (S i). rewrite Hi. done.
Qed.

Lemma find_insert_findIndex {A} (p : A -> bool) (l : list A) (i : nat) (a' : A) :
  findIndex p l = Some i -> p a' = true -> List.find p (<[i := a']> l) = Some a'.
Proof.
  revert i. induction l as [|x l IH]; intros i; simpl; [done|].
  destruct (p x) eqn:Hp.
  - intros [= <-] Ha. simpl. by rewrite Ha.
  - destruct (findIndex p l) as [j|] eqn:Hj; simpl; [|done].
    intros [= <-] Ha. simpl. rewrite Hp. by apply IH.
Qed.

Lemma find_alter_findIndex {A} (p : A -> bool) (f : A -> A) (l : list A) (i : nat) :
  (forall x, p (f x) = p x) ->
  findIndex p l = Some i -> List.find p (alter f i l) = f <$> List.find p l.
Proof.
  intros Hf. revert i. induction l as [|x l IH]; intros i; simpl; [done|].
  destruct (p x) eqn:Hp.
  - intros [= <-]. simpl. by rewrite Hf, Hp.
  - destruct (findIndex p l) as [j|] eqn:Hj; simpl; [|done].
    intros [= <-]. simpl. rewrite Hp. by apply IH.
Qed.

Lemma findIndex_find {A} (p : A -> bool) (l : list A) (i : nat) :
  findIndex p l = Some i -> exists a, l !! i = Some a /\ List.find p l = Some a.
Proof.
  revert i. induction l as [|x l IH]; intros i; simpl; [done|].
  destruct (p x) eqn:Hp.
  - intros [= <-]. by exists x.
  - destruct (findIndex p l) as [j|] eqn:Hj; simpl; [|done].
    intros [= <-]. simpl. by apply IH.
Qed.

(** ** The authentication middleware *)

(** It touches nothing but the console. *)
Lemma auth_frame jwt req w r w0 :
  authMiddleware jwt req w = (r, w0) ->
  w_disk w0 = w_disk w /\ w_connectedUsers w0 = w_connectedUsers w /\
  w_socketUser w0 = w_socketUser w /\ w_emitted w0 = w_emitted w /\
  w_writes w0 = w_writes w.
Proof.
  intros H. unfold authMiddleware in H. unfold_monad. branches; done.
Qed.

Lemma route_authenticated jwt handler req w user w0 :
  authMiddleware jwt req w = (inr user, w0) ->
  route jwt handler req w = handler user req w0.
Proof. intros H. unfold route, bind. by rewrite H. Qed.

Lemma route_refused jwt handler req w resp w0 :
  authMiddleware jwt req w = (inl resp, w0) ->
  route jwt handler req w = (resp, w0).
Proof. intros H. unfold route, bind. by rewrite H. Qed.

(** ** C9: who may resolve and who may cancel *)

Lemma alert_resolve_found env user req w alert :
  find_alert (req_params_id req) w = Some alert ->
  let alert' := set_resolved (e_date env 0) alert in
  let out := post_alert_resolve env user req w in
  fst out = {| r_status := 200; r_success := true;
               r_message := "Emergency alert resolved"; r_data := DAlert alert' |} /\
  (if e_write_ok env FEmergency
   then find_alert (req_params_id req) (snd out) = Some alert'
   else w_disk (snd out) = w_disk w).
Proof.
  unfold find_alert, stored_alerts. intros Hfind.
  destruct (find_findIndex _ _ _ Hfind) as (i & Hi & Hl & Hid).
  unfold post_alert_resolve. unfold_monad. simpl.
  destruct (d_emergency (w_disk w)) as [alerts|] eqn:Hd; simpl in *; [|done].
  rewrite Hi, Hl. simpl.
  destruct (e_write_ok env FEmergency); simpl; [|done].
  split; [done|]. by apply find_insert_findIndex.
Qed.

Lemma alert_cancel_found env user req w alert :
  find_alert (req_params_id req) w = Some alert ->
  let alert' := set_cancelled (e_date env 0) alert in
  let out := post_alert_cancel env user req w in
  if String.eqb (a_userId alert) (u_id user)
  then fst out = {| r_status := 200; r_success := true;
                    r_message := "Emergency alert cancelled"; r_data := DAlert alert' |} /\
       (if e_write_ok env FEmergency
        then find_alert (req_params_id req) (snd out) = Some alert'
        else w_disk (snd out) = w_disk w)
  else fst out = reject 404 "Alert not found" /\
       w_disk (snd out) = w_disk w /\ w_emitted (snd out) = w_emitted w.
Proof.
  unfold find_alert, stored_alerts. intros Hfind.
  destruct (find_findIndex _ _ _ Hfind) as (i & Hi & Hl & Hid).
  unfold post_alert_cancel. unfold_monad. simpl.
  destruct (d_emergency (w_disk w)) as [alerts|] eqn:Hd; simpl in *; [|done].
  rewrite Hi, Hl. simpl.
  destruct (String.eqb (a_userId alert) (u_id user)); simpl; [|done].
  destruct (e_write_ok env FEmergency); simpl; [|done].
  split; [done|]. by apply find_insert_findIndex.
Qed.

(** C9. For an authenticated caller and the id of an existing alert, resolve
    answers 200 with the alert set to resolved, and stores it when the save
    succeeds, whoever owns the alert.  Cancel answers 404 "Alert not found"
    and changes nothing unless the caller's id is the alert's [userId]; for
    the owner it answers 200 with the alert set to cancelled. *)
Theorem resolve_for_anyone_cancel_for_owner jwt env req w user w0 alert :
  authMiddleware jwt req w = (inr user, w0) ->
  find_alert (req_params_id req) w = Some alert ->
  let res := route jwt (post_alert_resolve env) req w in
  let can := route jwt (post_alert_cancel env) req w in
  (fst res = {| r_status := 200; r_success := true;
                r_message := "Emergency alert resolved";
                r_data := DAlert (set_resolved (e_date env 0) alert) |} /\
   (e_write_ok env FEmergency = true ->
    a_status <$> find_alert (req_params_id req) (snd res) = Some resolved)) /\
  (a_userId alert <> u_id user ->
   fst can = reject 404 "Alert not found" /\ w_disk (snd can) = w_disk w) /\
  (a_userId alert = u_id user ->
   fst can = {| r_status := 200; r_success := true;
                r_message := "Emergency alert cancelled";
                r_data := DAlert (set_cancelled (e_date env 0) alert) |} /\
   (e_write_ok env FEmergency = true ->
    a_status <$> find_alert (req_params_id req) (snd can) = Some cancelled)).
Proof.
  intros Hauth Hfind res can. subst res can.
  rewrite !(route_authenticated _ _ _ _ _ _ Hauth).
  destruct (auth_frame _ _ _ _ _ Hauth) as (Hdisk & _).
  assert (find_alert (req_params_id req) w0 = Some alert) as Hfind0.
  { unfold find_alert, stored_alerts in *. by rewrite Hdisk. }
  pose proof (alert_resolve_found env user req w0 alert Hfind0) as [Hr1 Hr2].
  pose proof (alert_cancel_found env user req w0 alert Hfind0) as Hc.
  simpl in *. split; [split; [done|]|split].
  - intros Hok. rewrite Hok in Hr2. by rewrite Hr2.
  - intros Hne. apply String.eqb_neq in Hne. rewrite Hne in Hc.
    destruct Hc as (? & ? & ?). split; [done | congruence].
  - intros Heq. apply String.eqb_eq in Heq. rewrite Heq in Hc.
    destruct Hc as [Hc1 Hc2]. split; [done|].
    intros Hok. rewrite Hok in Hc2. by rewrite Hc2.
Qed.

Lemma resolve_for_anyone_cancel_for_owner_witness :
  fst (route Sample.jwt0 (post_alert_resolve Sample.env0) (Sample.request "t2" "a1")
         (Sample.world0 [Sample.alert1 active])) =
    {| r_status := 200; r_success := true; r_message := "Emergency alert resolved";
       r_data := DAlert (set_resolved 1000 (Sample.alert1 active)) |} /\
  fst (route Sample.jwt0 (post_alert_cancel Sample.env0) (Sample.request "t2" "a1")
         (Sample.world0 [Sample.alert1 active])) = reject 404 "Alert not found".
Proof.
  pose proof (resolve_for_anyone_cancel_for_owner Sample.jwt0 Sample.env0
                (Sample.request "t2" "a1") (Sample.world0 [Sample.alert1 active])
                Sample.bob (Sample.world0 [Sample.alert1 active]) (Sample.alert1 active)
                eq_refl eq_refl) as [[Hres _] [Hcan _]].
  split.
  - exact Hres.
  - apply Hcan. discriminate.
Defined.

(** Without an alert of that id, both answer 404. *)
Lemma alert_not_found env user req w :
  find_alert (req_params_id req) w = None ->
  fst (post_alert_resolve env user req w) = reject 404 "Alert not found" /\
  fst (post_alert_cancel env user req w) = reject 404 "Alert not found".
Proof.
  unfold find_alert, stored_alerts. intros Hfind.
  unfold post_alert_resolve, post_alert_cancel. unfold_monad. simpl.
  destruct (d_emergency (w_disk w)) as [alerts|] eqn:Hd; simpl in *; [|done].
  destruct (findIndex _ alerts) as [i|] eqn:Hi; [|done].
  destruct (findIndex_find _ _ _ Hi) as (a & _ & Ha). congruence.
Qed.

(** ** C10: the real-time handler for group messages *)


(** A scalar [groupId] always has a string conversion, and the room is then
    the one the HTTP route and [join-group] name. *)
Lemma scalar_group_id_room (v : value) :
  String.append "group-" <$> json_to_string (JScalar v) = Some (group_room v).
Proof. reflexivity. Qed.


(** It fails as well on a payload whose [groupId] is an object with a
    property [toString]: the record is stored, and then the room cannot be
    named, so the sender gets an [error] event and no room gets the
    message. *)
Example unnameable_room_is_stored_not_sent :
  let w' := snd (on_send_group_message Sample.env0 "s2" Sample2.odd_group_id Sample.world_bob) in
  m_content <$> stored_messages w' = [JScalar (VStr "hi")] /\
  since (w_emitted Sample.world_bob) (w_emitted w') =
    [ {| em_target := ToSocket "s2"; em_event := "error";
         em_payload := PError "Cannot convert object to primitive value" |} ].
Proof. vm_compute. done. Qed.

(** Arrays and objects without a [toString] of their own do name a room. *)
Example rooms_of_arrays_and_objects :
  json_to_string (JArray [JScalar (VNum 1); JScalar VNull; JArray [JScalar (VStr "a"); JScalar (VBool true)]])
    = Some "1,,a,true" /\
  json_to_string (JObject [("id", JScalar (VStr "g1"))]) = Some "[object Object]" /\
  json_to_string (JArray [JObject []]) = Some "[object Object]" /\
  json_to_string (JArray [JScalar (VStr "g1"); JObject [("toString", JScalar VNull)]]) = None.
Proof. vm_compute. done. Qed.

(** ** C6: a save that fails *)













(** The example of the group message: the disk refuses the writes, alice
    still gets her 201 and the room still gets the message; the collection
    stays empty and the console has the two lines. *)
Example unsaved_message_is_acknowledged :
  let out := dispatch Sample.jwt0 (Sample.env_id "id1" false)
               (HttpGroupMessage (Sample.request "t1" "g1")) Sample.world_alice in
  (exists body, fst out = Replied {| r_status := 201; r_success := true;
                                     r_message := "Message sent"; r_data := body |}) /\
  (exists u, since (w_emitted Sample.world_alice) (w_emitted (snd out)) =
     [ {| em_target := ToRoom "group-g1"; em_event := "new-message";
          em_payload := PNewMessage true
             {| mr_message := Sample.message_hi (VStr "u1"); mr_user := u |} |} ]) /\
  stored_messages (snd out) = [] /\
  stored_messageCount "g1" (snd out) = Some 0 /\
  w_console (snd out) = [ErrorWriting FMessages; ErrorWriting FGroups].
Proof. vm_compute. eauto 10. Qed.

(** ** C1: a sender who is not a member *)

(** The HTTP route refuses a sender who is not a member of the group, before
    anything is read from or written to the messages file and before anything
    is emitted. *)
Lemma http_non_member_is_refused env user req w :
  is_member (u_id user) (req_params_id req) w = false ->
  let out := post_group_message env user req w in
  r_success (fst out) = false /\
  (r_status (fst out) = 400 \/ r_status (fst out) = 404 \/ r_status (fst out) = 403) /\
  w_disk (snd out) = w_disk w /\ w_emitted (snd out) = w_emitted w /\
  w_writes (snd out) = w_writes w.
Proof.
  unfold is_member, stored_groups, post_group_message. unfold_monad. simpl.
  intros Hm.
  destruct (truthy (b_content (req_body req))); simpl; [|tauto].
  destruct (d_groups (w_disk w)) as [groups|]; simpl in *; [|tauto].
  destruct (List.find _ groups) as [group|]; simpl; [|tauto].
  rewrite Hm. simpl. tauto.
Qed.

Lemma http_non_member_gets_403 env user req w group :
  truthy (b_content (req_body req)) = true ->
  List.find (fun g => String.eqb (g_id g) (req_params_id req)) (stored_groups w) = Some group ->
  includes (u_id user) (g_members group) = false ->
  fst (post_group_message env user req w) = reject 403 "You are not a member of this group".
Proof.
  unfold stored_groups, post_group_message. unfold_monad. simpl.
  intros -> Hg Hm. simpl.
  destruct (d_groups (w_disk w)) as [groups|]; simpl in *; [|done].
  rewrite Hg, Hm. done.
Qed.

(** C1 at its failing input. bob is not a member of [g1]. His
    [send-group-message] on the socket is served all the same: the record is
    stored and the room of [g1] gets it, where the HTTP route answers 403
    to the same sender. *)
Theorem realtime_send_by_non_member_goes_through :
  let out := dispatch Sample.jwt0 Sample.env0 (SockSendGroupMessage "s2" Sample.hi)
               Sample.world_bob in
  is_member "u2" "g1" Sample.world_bob = false /\
  w_socketUser Sample.world_bob !! "s2" = Some (VStr "u2") /\
  fst out = Done /\
  stored_messages Sample.world_bob = [] /\
  stored_messages (snd out) = [Sample.message_hi (VStr "u2")] /\
  since (w_emitted Sample.world_bob) (w_emitted (snd out)) =
    [ {| em_target := ToRoom "group-g1"; em_event := "new-message";
         em_payload := PNewMessage true
            {| mr_message := Sample.message_hi (VStr "u2"); mr_user := None |} |} ] /\
  fst (dispatch Sample.jwt0 Sample.env0 (HttpGroupMessage (Sample.request "t2" "g1"))
         Sample.world_bob) = Replied (reject 403 "You are not a member of this group").
Proof. vm_compute. done. Qed.

(** ** C2: what a sent message leaves behind *)

(** The HTTP route, for a member and with the saves succeeding: the record is
    appended, the count of the group goes up by one, the room gets the
    message. *)
Lemma http_group_message_effects env user req w group :
  truthy (b_content (req_body req)) = true ->
  List.find (fun g => String.eqb (g_id g) (req_params_id req)) (stored_groups w) = Some group ->
  includes (u_id user) (g_members group) = true ->
  e_write_ok env FMessages = true -> e_write_ok env FGroups = true ->
  let out := post_group_message env user req w in
  let m := {| m_id := e_id env; m_groupId := VStr (req_params_id req);
              m_userId := VStr (u_id user); m_content := b_content (req_body req);
              m_messageType := "text"; m_reactions := no_reactions;
              m_isEdited := false; m_createdAt := e_date env 0 |} in
  r_status (fst out) = 201 /\
  stored_messages (snd out) = stored_messages w ++ [m] /\
  stored_messageCount (req_params_id req) (snd out) = Some (g_messageCount group + 1) /\
  exists e, w_emitted (snd out) = w_emitted w ++ [e] /\
            new_message_to (group_room (VStr (req_params_id req))) m e.
Proof.
  unfold stored_messageCount, stored_groups, stored_messages, post_group_message, new_message_to.
  unfold_monad. simpl.
  intros -> Hg Hm Hwm Hwg. simpl.
  destruct (d_groups (w_disk w)) as [groups|] eqn:Hd; simpl in *; [|done].
  rewrite Hg, Hm. simpl.
  destruct (find_findIndex _ _ _ Hg) as (i & Hi & _ & _).
  rewrite Hi.
  destruct (d_messages (w_disk w)) as [messages|]; simpl; rewrite Hwm; simpl;
    rewrite Hwg; simpl;
    (destruct (d_users (w_disk w)); simpl;
     (split; [done|]; split; [done|]; split;
      [ rewrite (find_alter_findIndex _ bump_messageCount) by done; by rewrite Hg
      | eexists; split; [reflexivity|]; simpl; eauto ])).
Qed.

(** The real-time handler never writes the groups file. *)
Lemma realtime_send_keeps_groups env sid data w :
  d_groups (w_disk (snd (on_send_group_message env sid data w))) = d_groups (w_disk w).
Proof.
  unfold on_send_group_message. unfold_monad.
  destruct (cannot_destructure data); simpl; [done|].
  destruct (d_messages (w_disk w)), (e_write_ok env FMessages),
    (json_to_string (property "groupId" data)); done.
Qed.

(** C2 at its failing input. alice is a member of [g1] and has announced
    herself.  Her message sent over the socket is appended and published,
    but the message count of [g1] stays at 0; the same message sent over
    HTTP takes it to 1. *)
Theorem realtime_send_leaves_message_count :
  let out := dispatch Sample.jwt0 Sample.env0 (SockSendGroupMessage "s1" Sample.hi)
               Sample.world_alice in
  let http := dispatch Sample.jwt0 Sample.env0 (HttpGroupMessage (Sample.request "t1" "g1"))
               Sample.world_alice in
  is_member "u1" "g1" Sample.world_alice = true /\
  fst out = Done /\
  stored_messages (snd out) =
    stored_messages Sample.world_alice ++ [Sample.message_hi (VStr "u1")] /\
  since (w_emitted Sample.world_alice) (w_emitted (snd out)) =
    [ {| em_target := ToRoom "group-g1"; em_event := "new-message";
         em_payload := PNewMessage true
            {| mr_message := Sample.message_hi (VStr "u1"); mr_user := None |} |} ] /\
  stored_messageCount "g1" Sample.world_alice = Some 0 /\
  stored_messageCount "g1" (snd out) = Some 0 /\
  stored_messageCount "g1" (snd http) = Some 1.
Proof. vm_compute. done. Qed.

(** ** C5: the same action over HTTP and over the socket *)

(** For a group message the two paths store the same record. *)
Lemma group_message_same_record env user req sid w :
  w_socketUser w !! sid = Some (VStr (u_id user)) ->
  truthy (b_content (req_body req)) = true ->
  is_member (u_id user) (req_params_id req) w = true ->
  d_messages (w_disk (snd (post_group_message env user req w))) =
  d_messages (w_disk (snd (on_send_group_message env sid
      (JObject [ ("groupId", JScalar (VStr (req_params_id req)));
                 ("content", JScalar (b_content (req_body req))) ]) w))).
Proof.
  unfold is_member, stored_groups, post_group_message, on_send_group_message.
  unfold_monad. intros Hs Hc Hm. open_world w. simpl in *. rewrite Hc. simpl.
  destruct groups as [groups|]; simpl in *; [|done].
  destruct (List.find _ groups) as [group|] eqn:Hg; [|done].
  rewrite Hm. simpl.
  destruct (find_findIndex _ _ _ Hg) as (i & -> & _ & _).
  destruct messages, (e_write_ok env FMessages), (e_write_ok env FGroups), users;
    simpl; rewrite ?Hs; done.
Qed.

(** The real-time handlers for direct messages and for emergency alerts
    write no file at all. *)
Lemma realtime_direct_message_keeps_disk env sid data w :
  w_disk (snd (on_direct_message env sid data w)) = w_disk w.
Proof.
  unfold on_direct_message. unfold_monad.
  destruct data as [d|]; simpl; [|done].
  destruct (w_connectedUsers w !! dd_recipientId d) as [sock|]; [|done].
  by destruct (truthy (VStr sock)).
Qed.

Lemma realtime_alert_keeps_disk env sid data w :
  w_disk (snd (on_emergency_alert env sid data w)) = w_disk w.
Proof.
  unfold on_emergency_alert. unfold_monad. by destruct data.
Qed.

(** C5 at its failing inputs. bob sends "hi" to alice: over HTTP the
    record is in the direct messages afterwards, over the socket the
    collection is still empty, though alice's socket is notified both times.
    bob raises an alert: over HTTP it is in the alerts afterwards, over the
    socket nothing is stored. *)
Theorem realtime_paths_store_nothing :
  let http_dm := dispatch Sample.jwt0 Sample.env0
                   (HttpMessagesSend (Sample.request "t2" "")) Sample.world_both in
  let sock_dm := dispatch Sample.jwt0 Sample.env0
                   (SockDirectMessage "s2" Sample.hi_alice) Sample.world_both in
  let http_alert := dispatch Sample.jwt0 Sample.env0
                   (HttpEmergencyAlert (Sample.request "t2" "")) Sample.world_both in
  let sock_alert := dispatch Sample.jwt0 Sample.env0
                   (SockEmergencyAlert "s2" Sample.help) Sample.world_both in
  stored_directMessages (snd http_dm) =
    [ {| dm_id := "id1"; dm_sender := "u2"; dm_recipient := VStr "u1";
         dm_content := VStr "hi"; dm_isRead := false; dm_createdAt := 1000 |} ] /\
  stored_directMessages (snd sock_dm) = [] /\
  em_target <$> since (w_emitted Sample.world_both) (w_emitted (snd http_dm)) = [ToRoom "s1"] /\
  em_target <$> since (w_emitted Sample.world_both) (w_emitted (snd sock_dm)) = [ToRoom "s1"] /\
  a_userId <$> stored_alerts (snd http_alert) = ["u2"] /\
  stored_alerts (snd sock_alert) = [] /\
  em_event <$> since (w_emitted Sample.world_both) (w_emitted (snd http_alert)) =
    ["emergency-broadcast"] /\
  em_event <$> since (w_emitted Sample.world_both) (w_emitted (snd sock_alert)) =
    ["emergency-broadcast"].
Proof. vm_compute. done. Qed.

(** * More properties *)

(** ** Sorting and slicing *)

Lemma sort_insert_perm {A} (cmp : A -> A -> Z) (x : A) (l : list A) :
  Permutation (sort_insert cmp x l) (x :: l).
Proof.
  induction l as [|y l IH]; simpl; [done|].
  destruct (cmp x y <=? 0); [done|].
  rewrite IH. apply perm_swap.
Qed.

Lemma js_sort_perm {A} (cmp : A -> A -> Z) (l : list A) :
  Permutation (js_sort cmp l) l.
Proof.
  induction l as [|x l IH]; simpl; [done|].
  unfold js_sort in *. simpl. rewrite sort_insert_perm. by constructor.
Qed.

Lemma js_sort_length {A} (cmp : A -> A -> Z) (l : list A) :
  length (js_sort cmp l) = length l.
Proof. apply Permutation_length, js_sort_perm. Qed.

Lemma js_sort_Forall {A} (P : A -> Prop) (cmp : A -> A -> Z) (l : list A) :
  Forall P l -> Forall P (js_sort cmp l).
Proof. intros H. by rewrite js_sort_perm. Qed.

(** Sorting with [(a, b) => key(a) - key(b)] orders by the key. *)
Lemma sort_insert_sorted {A} (key : A -> Z) (x : A) (l : list A) :
  StronglySorted (fun a b => key a <= key b) l ->
  StronglySorted (fun a b => key a <= key b) (sort_insert (fun a b => key a - key b) x l).
Proof.
  induction 1 as [|y l Hl IH Hy]; simpl.
  - repeat constructor.
  - destruct (key x - key y <=? 0) eqn:Hc.
    + apply Z.leb_le in Hc. constructor; [by constructor|].
      constructor; [lia|]. eapply list.Forall_impl; [exact Hy|]. simpl. intros. lia.
    + apply Z.leb_gt in Hc. constructor; [done|].
      rewrite sort_insert_perm. constructor; [lia | done].
Qed.

Lemma js_sort_ascending {A} (key : A -> Z) (l : list A) :
  StronglySorted (fun a b => key a <= key b) (js_sort (fun a b => key a - key b) l).
Proof.
  induction l as [|x l IH]; [constructor|].
  unfold js_sort in *. simpl. by apply sort_insert_sorted.
Qed.

(** Sorting with [(a, b) => key(b) - key(a)] orders by the key, largest
    first. *)
Lemma sort_insert_sorted_desc {A} (key : A -> Z) (x : A) (l : list A) :
  StronglySorted (fun a b => key b <= key a) l ->
  StronglySorted (fun a b => key b <= key a) (sort_insert (fun a b => key b - key a) x l).
Proof.
  induction 1 as [|y l Hl IH Hy]; simpl.
  - repeat constructor.
  - destruct (key y - key x <=? 0) eqn:Hc.
    + apply Z.leb_le in Hc. constructor; [by constructor|].
      constructor; [lia|]. eapply list.Forall_impl; [exact Hy|]. simpl. intros. lia.
    + apply Z.leb_gt in Hc. constructor; [done|].
      rewrite sort_insert_perm. constructor; [lia | done].
Qed.

Lemma js_sort_descending {A} (key : A -> Z) (l : list A) :
  StronglySorted (fun a b => key b <= key a) (js_sort (fun a b => key b - key a) l).
Proof.
  induction l as [|x l IH]; [constructor|].
  unfold js_sort in *. simpl. by apply sort_insert_sorted_desc.
Qed.



(** [slice(0, n)], [slice(-n)] and the slices in general. *)
Lemma js_slice_first {A} (n : nat) (l : list A) :
  js_slice (Some 0) (Some (Some (Z.of_nat n))) l = take n l.
Proof.
  unfold js_slice, rel_index.
  destruct (Z.of_nat n <? 0) eqn:Hn; [apply Z.ltb_lt in Hn; lia|].
  change (0 <? 0) with false. cbv iota.
  replace (Z.to_nat (Z.min 0 (Z.of_nat (length l)))) with 0%nat by lia.
  rewrite drop_0, Nat.sub_0_r.
  destruct (decide (n <= length l)%nat).
  - f_equal. lia.
  - rewrite !take_ge by lia. done.
Qed.

Lemma js_slice_last {A} (n : nat) (l : list A) :
  (0 < n)%nat -> js_slice (Some (- Z.of_nat n)) None l = drop (length l - n) l.
Proof.
  intros Hn. unfold js_slice, rel_index.
  destruct (- Z.of_nat n <? 0) eqn:Hc; [|apply Z.ltb_ge in Hc; lia].
  replace (Z.to_nat (Z.max (Z.of_nat (length l) + - Z.of_nat n) 0))
    with (length l - n)%nat by lia.
  rewrite take_ge; [done|]. rewrite length_drop. lia.
Qed.

Lemma js_slice_sublist {A} start stop (l : list A) : sublist (js_slice start stop l) l.
Proof.
  unfold js_slice. etrans; [apply sublist_take|apply sublist_drop].
Qed.

Lemma Forall_sublist {A} (P : A -> Prop) (l1 l2 : list A) :
  sublist l1 l2 -> Forall P l2 -> Forall P l1.
Proof.
  induction 1 as [|x l1 l2 Hs IH|x l1 l2 Hs IH]; intros H; [done| |].
  - apply Forall_cons_1 in H as [Hx H]. constructor; auto.
  - apply Forall_cons_1 in H as [Hx H]. auto.
Qed.

Lemma js_slice_Forall {A} (P : A -> Prop) start stop (l : list A) :
  Forall P l -> Forall P (js_slice start stop l).
Proof. apply Forall_sublist, js_slice_sublist. Qed.

Lemma js_slice_sorted {A} (R : A -> A -> Prop) start stop (l : list A) :
  StronglySorted R l -> StronglySorted R (js_slice start stop l).
Proof.
  intros H. pose proof (js_slice_sublist start stop l) as Hs.
  revert H. induction Hs as [|x l1 l2 Hs IH|x l1 l2 Hs IH]; intros H.
  - constructor.
  - apply StronglySorted_inv in H as [H1 H2]. constructor; [by apply IH|].
    eapply Forall_sublist; eauto.
  - apply StronglySorted_inv in H as [H1 H2]. by apply IH.
Qed.

Lemma sorted_map {A B} (f : A -> B) (R : B -> B -> Prop) (l : list A) :
  StronglySorted (fun a b => R (f a) (f b)) l -> StronglySorted R (map f l).
Proof.
  induction 1 as [|x l Hl IH Hx]; simpl; constructor; [done|].
  by apply Forall_map.
Qed.

Lemma sorted_of_map {A B} (f : A -> B) (R : B -> B -> Prop) (l : list A) :
  StronglySorted R (map f l) -> StronglySorted (fun a b => R (f a) (f b)) l.
Proof.
  induction l as [|x l IH]; simpl; intros H; [constructor|].
  apply StronglySorted_inv in H as [H1 H2]. constructor; [by apply IH|].
  apply List.Forall_forall. intros y Hy.
  exact (proj1 (List.Forall_forall _ _) H2 (f y) (in_map f l y Hy)).
Qed.

Lemma Forall_sublist_sorted {A} (R : A -> A -> Prop) (l1 l2 : list A) :
  sublist l1 l2 -> StronglySorted R l2 -> StronglySorted R l1.
Proof.
  induction 1 as [|x l1 l2 Hs IH|x l1 l2 Hs IH]; intros H.
  - constructor.
  - apply StronglySorted_inv in H as [H1 H2]. constructor; [by apply IH|].
    eapply Forall_sublist; eauto.
  - apply StronglySorted_inv in H as [H1 H2]. by apply IH.
Qed.

(** ** Reading a file *)

Lemma same_but_console_refl w : same_but_console w w.
Proof. by repeat split. Qed.

Lemma same_but_console_trans w1 w2 w3 :
  same_but_console w1 w2 -> same_but_console w2 w3 -> same_but_console w1 w3.
Proof.
  unfold same_but_console. intros (?&?&?&?&?&?) (?&?&?&?&?&?).
  repeat split; congruence.
Qed.

Lemma readData_result {A} (f : File A) (w : World) :
  fst (readData f w) = default [] (f_get f (w_disk w)) /\
  same_but_console w (snd (readData f w)).
Proof.
  unfold readData. destruct (f_get f (w_disk w)); simpl; split; try done;
    by repeat split.
Qed.

(** ** The messages of a group *)

Lemma map_with_author users (l : list Message) :
  map mr_message (map (with_author users) l) = l.
Proof. induction l as [|m l IH]; simpl; [done|]. by rewrite IH. Qed.

Lemma get_group_messages_run parseInt user req q w :
  exists w',
    get_group_messages parseInt user req q w =
      (inr (ok (map (with_author (stored_users w))
                  (js_slice (num_sub (num_neg (query_number parseInt 50 (q_limit q)))
                                     (query_number parseInt 0 (q_skip q)))
                            (or_undefined (num_neg (query_number parseInt 0 (q_skip q))))
                            (group_history (req_params_id req) w)),
                length (group_history (req_params_id req) w))), w') /\
    same_but_console w w'.
Proof.
  unfold get_group_messages, group_history, stored_messages, stored_users, bind, ret.
  destruct (readData_result FILES_messages w) as [Hm Hw1].
  destruct (readData FILES_messages w) as [messages w1]. simpl in Hm, Hw1. subst messages.
  destruct (readData_result FILES_users w1) as [Hu Hw2].
  destruct (readData FILES_users w1) as [users w2]. simpl in Hu, Hw2. subst users.
  exists w2. split; [|by eapply same_but_console_trans].
  destruct Hw1 as (-> & _). done.
Qed.

Lemma group_history_spec id w :
  Forall (fun m => m_groupId m = VStr id /\ m ∈ stored_messages w) (group_history id w) /\
  StronglySorted (fun a b => m_createdAt a <= m_createdAt b) (group_history id w).
Proof.
  unfold group_history. split; [|apply js_sort_ascending].
  apply js_sort_Forall, List.Forall_forall. intros m Hm.
  apply filter_In in Hm as [Hin Hg].
  apply strict_eq_scalar in Hg. split; [done|]. by apply list_elem_of_In.
Qed.

Lemma group_messages_listing_lemma parseInt user req q w :
  exists page w',
    get_group_messages parseInt user req q w =
      (inr (ok (page, length (List.filter
                                (fun m => strict_eq (m_groupId m) (VStr (req_params_id req)))
                                (stored_messages w)))), w') /\
    same_but_console w w' /\
    Forall (fun r => m_groupId (mr_message r) = VStr (req_params_id req) /\
                     mr_message r ∈ stored_messages w) page /\
    StronglySorted (fun a b => m_createdAt (mr_message a) <= m_createdAt (mr_message b)) page.
Proof.
  destruct (get_group_messages_run parseInt user req q w) as (w' & Hrun & Hw).
  destruct (group_history_spec (req_params_id req) w) as [Hall Hsorted].
  eexists _, w'. split; [|split; [done|split]].
  - rewrite Hrun. unfold group_history. by rewrite js_sort_length.
  - apply List.Forall_map with (f := mr_message)
      (P := fun m => m_groupId m = VStr (req_params_id req) /\ m ∈ stored_messages w).
    rewrite map_with_author. by apply js_slice_Forall.
  - apply (sorted_of_map mr_message (fun a b => m_createdAt a <= m_createdAt b)).
    rewrite map_with_author. by apply js_slice_sorted.
Qed.

(** X1. The listing of a group's messages always answers, whoever asks
    and whether or not the group exists: it changes nothing but the console,
    [totalMessages] is the number of stored messages of the group, and the
    page holds stored messages of that group only, oldest first. *)
Theorem group_messages_listing parseInt user req q w :
  exists page w',
    get_group_messages parseInt user req q w =
      (inr (ok (page, length (List.filter
                                (fun m => strict_eq (m_groupId m) (VStr (req_params_id req)))
                                (stored_messages w)))), w') /\
    same_but_console w w' /\
    Forall (fun r => m_groupId (mr_message r) = VStr (req_params_id req) /\
                     mr_message r ∈ stored_messages w) page /\
    StronglySorted (fun a b => m_createdAt (mr_message a) <= m_createdAt (mr_message b)) page.
Proof. apply group_messages_listing_lemma. Qed.

(** X2. With [limit] a positive number and [skip] a number that is not
    negative, the page is what remains of the history after the [skip] newest
    messages are left out, cut to its [limit] newest. *)
Theorem group_messages_page parseInt user req q w (limit skip : nat) :
  query_number parseInt 50 (q_limit q) = Some (Z.of_nat limit) ->
  query_number parseInt 0 (q_skip q) = Some (Z.of_nat skip) ->
  (0 < limit)%nat ->
  let history := group_history (req_params_id req) w in
  let rest := take (length history - skip) history in
  listed_messages parseInt user req q w = drop (length rest - limit) rest /\
  (length (listed_messages parseInt user req q w) <= limit)%nat.
Proof.
  intros Hl Hs Hpos history rest.
  assert (listed_messages parseInt user req q w = drop (length rest - limit) rest) as Heq.
  { unfold listed_messages.
    destruct (get_group_messages_run parseInt user req q w) as (w' & -> & _).
    simpl. rewrite map_with_author, Hl, Hs. fold history.
    unfold js_slice, rel_index, num_sub, num_neg, or_undefined. simpl.
    assert (length rest = (length history - skip)%nat) as Hrest.
    { subst rest. rewrite length_take. lia. }
    rewrite Hrest. subst rest.
    destruct (- Z.of_nat limit - Z.of_nat skip <? 0) eqn:Hc; [|apply Z.ltb_ge in Hc; lia].
    replace (Z.to_nat (Z.max (Z.of_nat (length history)
                              + (- Z.of_nat limit - Z.of_nat skip)) 0))
      with (length history - skip - limit)%nat by lia.
    destruct (- Z.of_nat skip =? 0) eqn:Hz.
    - apply Z.eqb_eq in Hz. assert (skip = 0)%nat as -> by lia.
      rewrite !Nat.sub_0_r, firstn_all.
      rewrite take_ge; [done|]. rewrite length_drop. lia.
    - apply Z.eqb_neq in Hz.
      destruct (- Z.of_nat skip <? 0) eqn:Hc2; [|apply Z.ltb_ge in Hc2; lia].
      replace (Z.to_nat (Z.max (Z.of_nat (length history) + - Z.of_nat skip) 0))
        with (length history - skip)%nat by lia.
      rewrite take_drop_commute. f_equal. f_equal. lia. }
  split; [done|]. rewrite Heq, length_drop. lia.
Qed.

Lemma group_messages_page_witness :
  listed_messages parse_decimal Sample.alice (Sample.request "t1" "g1")
    {| q_limit := Some "2"; q_skip := Some "1"; q_status := None |}
    (event_loop Sample.jwt0 Sample.pending Sample.world_alice) =
  drop (length (take (length (group_history "g1"
                    (event_loop Sample.jwt0 Sample.pending Sample.world_alice)) - 1)
                  (group_history "g1"
                    (event_loop Sample.jwt0 Sample.pending Sample.world_alice))) - 2)
       (take (length (group_history "g1"
                    (event_loop Sample.jwt0 Sample.pending Sample.world_alice)) - 1)
             (group_history "g1" (event_loop Sample.jwt0 Sample.pending Sample.world_alice))).
Proof.
  apply (group_messages_page parse_decimal Sample.alice (Sample.request "t1" "g1")
           {| q_limit := Some "2"; q_skip := Some "1"; q_status := None |}
           (event_loop Sample.jwt0 Sample.pending Sample.world_alice) 2 1).
  - reflexivity.
  - reflexivity.
  - lia.
Defined.

(** X3. A [limit] of 0, or one that is not a number, with no [skip], does not
    give an empty page: it gives the whole history of the group. *)
Theorem group_messages_without_limit parseInt user req q w :
  query_number parseInt 50 (q_limit q) = None \/
  query_number parseInt 50 (q_limit q) = Some 0 ->
  query_number parseInt 0 (q_skip q) = Some 0 ->
  listed_messages parseInt user req q w = group_history (req_params_id req) w.
Proof.
  intros Hl Hs. unfold listed_messages.
  destruct (get_group_messages_run parseInt user req q w) as (w' & -> & _).
  simpl. rewrite map_with_author, Hs.
  assert (forall start, start = None \/ start = Some 0 ->
            js_slice start (or_undefined (num_neg (Some 0)))
              (group_history (req_params_id req) w) = group_history (req_params_id req) w)
    as Hall.
  { intros start Hstart. unfold js_slice. simpl.
    assert (rel_index (length (group_history (req_params_id req) w)) start = 0%nat) as ->.
    { destruct Hstart as [-> | ->]; unfold rel_index; simpl; [done | lia]. }
    rewrite drop_0, Nat.sub_0_r. apply firstn_all. }
  apply Hall. destruct Hl as [-> | ->]; simpl; auto.
Qed.

Lemma group_messages_without_limit_witness :
  listed_messages parse_decimal Sample.alice (Sample.request "t1" "g1")
    {| q_limit := Some "0"; q_skip := None; q_status := None |}
    (event_loop Sample.jwt0 Sample.pending Sample.world_alice) =
  group_history "g1" (event_loop Sample.jwt0 Sample.pending Sample.world_alice).
Proof.
  apply (group_messages_without_limit parse_decimal Sample.alice (Sample.request "t1" "g1")
           {| q_limit := Some "0"; q_skip := None; q_status := None |}).
  - right. reflexivity.
  - reflexivity.
Defined.









(** The rooms of some numbers: a number is printed as JavaScript prints it,
    with an exponent from [1e21] on. *)
Example rooms_of_numbers :
  group_room (VNum 7) = "group-7" /\
  group_room (VNum (-12)) = "group--12" /\
  group_room (VNum (2 ^ 64)) = "group-18446744073709552000" /\
  group_room (VNum (10 ^ 21)) = "group-1e+21" /\
  group_room (VNum (2 ^ 70)) = "group-1.1805916207174113e+21" /\
  em_target <$> list.last (w_emitted (snd (on_send_group_message Sample.env0 "s2"
      (JObject [("groupId", JScalar (VNum (10 ^ 21))); ("content", JScalar (VStr "hi"))])
      Sample.world_bob))) = Some (ToRoom "group-1e+21").
Proof. vm_compute. done. Qed.

(** ** Reading the alerts *)

Lemma get_alerts_run user req q w :
  exists w',
    get_alerts user req q w =
      (inr (ok (js_slice (Some 0) (Some (Some 50))
                  (js_sort (fun a b => a_createdAt b - a_createdAt a)
                     (match q_status q with
                      | Some status =>
                          if truthy (VStr status)
                          then List.filter
                                 (fun a => String.eqb (status_name (a_status a)) status)
                                 (List.filter (fun a => String.eqb (a_userId a) (u_id user))
                                    (stored_alerts w))
                          else List.filter (fun a => String.eqb (a_userId a) (u_id user))
                                 (stored_alerts w)
                      | None => List.filter (fun a => String.eqb (a_userId a) (u_id user))
                                  (stored_alerts w)
                      end)))), w') /\
    same_but_console w w'.
Proof.
  unfold get_alerts, stored_alerts, bind, ret.
  destruct (readData_result FILES_emergency w) as [Ha Hw1].
  destruct (readData FILES_emergency w) as [alerts w1]. simpl in Ha, Hw1. subst alerts.
  by exists w1.
Qed.

(** X6. The list of alerts holds stored alerts of the caller only, at most
    50 of them, newest first; with a [status] in the query, only alerts of
    that status.  Nothing but the console changes. *)
Theorem alerts_listing user req q w :
  exists alerts w',
    get_alerts user req q w = (inr (ok alerts), w') /\
    same_but_console w w' /\
    (length alerts <= 50)%nat /\
    Forall (fun a => a ∈ stored_alerts w /\ a_userId a = u_id user /\
                     match q_status q with
                     | Some status => status = "" \/ status_name (a_status a) = status
                     | None => True
                     end) alerts /\
    StronglySorted (fun a b => a_createdAt b <= a_createdAt a) alerts.
Proof.
  destruct (get_alerts_run user req q w) as (w' & Hrun & Hw).
  eexists _, w'. split; [exact Hrun|]. split; [done|].
  change (Some (Some 50)) with (Some (Some (Z.of_nat 50))).
  rewrite js_slice_first. split; [|split].
  - rewrite length_take. lia.
  - eapply Forall_sublist; [apply sublist_take|].
    apply js_sort_Forall.
    assert (Forall (fun a => a ∈ stored_alerts w /\ a_userId a = u_id user)
              (List.filter (fun a => String.eqb (a_userId a) (u_id user)) (stored_alerts w)))
      as Hown.
    { apply List.Forall_forall. intros a Ha. apply filter_In in Ha as [Ha Hu].
      split; [by apply list_elem_of_In | by apply String.eqb_eq]. }
    destruct (q_status q) as [status|] eqn:Hq.
    + destruct (truthy (VStr status)) eqn:Ht.
      * apply List.Forall_forall. intros a Ha. apply filter_In in Ha as [Ha Hs].
        apply (proj1 (List.Forall_forall _ _) Hown) in Ha as [? ?].
        split; [done|]. split; [done|]. right. by apply String.eqb_eq.
      * eapply list.Forall_impl; [exact Hown|]. intros a [? ?].
        split; [done|]. split; [done|]. left.
        unfold truthy in Ht. by apply negb_false_iff, String.eqb_eq in Ht.
    + eapply list.Forall_impl; [exact Hown|]. intros a [? ?]. done.
  - eapply Forall_sublist_sorted; [apply sublist_take|].
    apply (js_sort_descending a_createdAt).
Qed.



(** ** The conversation and the read mark *)

Lemma get_conversation_run user req w :
  exists w',
    get_conversation user req w =
      (inr (ok (drop (length (thread (u_id user) (req_params_id req) w) - 50)
                  (thread (u_id user) (req_params_id req) w))), w') /\
    same_but_console w w'.
Proof.
  unfold get_conversation, thread, stored_directMessages, bind, ret.
  destruct (readData_result FILES_directMessages w) as [Hm Hw1].
  destruct (readData FILES_directMessages w) as [messages w1]. simpl in Hm, Hw1. subst messages.
  exists w1. split; [|done].
  change (Some (-50)) with (Some (- Z.of_nat 50)). by rewrite js_slice_last by lia.
Qed.

Lemma between_sym me other m : between me other m = between other me m.
Proof. unfold between. apply orb_comm. Qed.

Lemma between_spec me other m :
  between me other m = true <->
  (dm_sender m = me /\ dm_recipient m = VStr other) \/
  (dm_sender m = other /\ dm_recipient m = VStr me).
Proof.
  unfold between. rewrite !strict_eq_scalars.
  rewrite orb_true_iff, !andb_true_iff, !String.eqb_eq, !bool_decide_eq_true. done.
Qed.

(** X8. The conversation holds stored messages that one of the two users
    sent to the other, and no others, at most 50 of them, oldest first; and
    nothing but the console changes. *)
Theorem conversation_listing user req w :
  exists messages w',
    get_conversation user req w = (inr (ok messages), w') /\
    same_but_console w w' /\
    (length messages <= 50)%nat /\
    Forall (fun m => m ∈ stored_directMessages w /\
                     ((dm_sender m = u_id user /\ dm_recipient m = VStr (req_params_id req)) \/
                      (dm_sender m = req_params_id req /\ dm_recipient m = VStr (u_id user))))
           messages /\
    StronglySorted (fun a b => dm_createdAt a <= dm_createdAt b) messages.
Proof.
  destruct (get_conversation_run user req w) as (w' & Hrun & Hw).
  eexists _, w'. split; [exact Hrun|]. split; [done|]. split; [|split].
  - rewrite length_drop. lia.
  - eapply Forall_sublist; [apply sublist_drop|].
    unfold thread. apply js_sort_Forall, List.Forall_forall. intros m Hm.
    apply filter_In in Hm as [Hin Hb]. split; [by apply list_elem_of_In|].
    by apply between_spec.
  - eapply Forall_sublist_sorted; [apply sublist_drop|].
    apply (js_sort_ascending dm_createdAt).
Qed.

Lemma conversation_is_shared_lemma (a b : User) (req_a req_b : Request) w :
  req_params_id req_a = u_id b ->
  req_params_id req_b = u_id a ->
  get_conversation a req_a w = get_conversation b req_b w.
Proof.
  intros Ha Hb. unfold get_conversation. rewrite Ha, Hb.
  unfold bind. destruct (readData FILES_directMessages w) as [messages w1].
  do 5 f_equal. induction messages as [|m l IH]; simpl; [done|].
  by rewrite (between_sym (u_id a) (u_id b)), IH.
Qed.

(** X9. Both sides see the same conversation: what a user gets for the
    conversation with another user is what that user gets for the
    conversation with the first. *)
Theorem conversation_is_shared (a b : User) (req_a req_b : Request) w :
  req_params_id req_a = u_id b ->
  req_params_id req_b = u_id a ->
  get_conversation a req_a w = get_conversation b req_b w /\
  conversation_of a req_a w = conversation_of b req_b w /\
  thread (u_id a) (u_id b) w = thread (u_id b) (u_id a) w.
Proof.
  intros Ha Hb.
  pose proof (conversation_is_shared_lemma a b req_a req_b w Ha Hb) as H.
  split; [done|]. split; [unfold conversation_of; by rewrite H|].
  unfold thread. f_equal.
  induction (stored_directMessages w) as [|m l IH]; simpl; [done|].
  by rewrite (between_sym (u_id a) (u_id b)), IH.
Qed.

Lemma conversation_is_shared_witness :
  get_conversation Sample.alice (Sample.request "t1" "u2") Sample.world_both =
  get_conversation Sample.bob (Sample.request "t2" "u1") Sample.world_both.
Proof.
  apply (conversation_is_shared Sample.alice Sample.bob (Sample.request "t1" "u2")
           (Sample.request "t2" "u1") Sample.world_both).
  - reflexivity.
  - reflexivity.
Defined.

Lemma post_messages_send_stores env user req w :
  truthy (b_recipientId (req_body req)) = true ->
  truthy (b_content (req_body req)) = true ->
  e_write_ok env FDirectMessages = true ->
  stored_directMessages (snd (post_messages_send env user req w)) =
    stored_directMessages w ++
    [ {| dm_id := e_id env; dm_sender := u_id user;
         dm_recipient := b_recipientId (req_body req);
         dm_content := b_content (req_body req); dm_isRead := false;
         dm_createdAt := e_date env 0 |} ].
Proof.
  unfold stored_directMessages, post_messages_send. unfold_monad.
  intros Hr Hc Hw. open_world w. simpl in *. rewrite Hr, Hc. simpl.
  destruct directs; simpl; rewrite Hw; branches; done.
Qed.

(** X10. A direct message sent over HTTP, once saved, is in the
    conversation as the sender gets it and as the recipient gets it, as long
    as the two had exchanged fewer than 50 messages. *)
Theorem sent_message_is_in_the_conversation env (sender recipient : User)
    (req req_sender req_recipient : Request) w :
  b_recipientId (req_body req) = VStr (u_id recipient) ->
  u_id recipient <> "" ->
  truthy (b_content (req_body req)) = true ->
  e_write_ok env FDirectMessages = true ->
  req_params_id req_sender = u_id recipient ->
  req_params_id req_recipient = u_id sender ->
  (length (thread (u_id sender) (u_id recipient) w) < 50)%nat ->
  let w1 := snd (post_messages_send env sender req w) in
  let m := {| dm_id := e_id env; dm_sender := u_id sender;
              dm_recipient := VStr (u_id recipient);
              dm_content := b_content (req_body req); dm_isRead := false;
              dm_createdAt := e_date env 0 |} in
  m ∈ conversation_of sender req_sender w1 /\
  m ∈ conversation_of recipient req_recipient w1.
Proof.
  intros Hr Hne Hc Hw Hs Hrc Hlen w1 m.
  assert (truthy (b_recipientId (req_body req)) = true) as Htr.
  { rewrite Hr. unfold truthy. by apply negb_true_iff, String.eqb_neq. }
  pose proof (post_messages_send_stores env sender req w Htr Hc Hw) as Hst.
  rewrite Hr in Hst. fold w1 m in Hst. clearbody w1.
  assert (m ∈ conversation_of sender req_sender w1) as Hin.
  { unfold conversation_of.
    destruct (get_conversation_run sender req_sender w1) as (w2 & -> & _). simpl.
    rewrite Hs.
    assert (Permutation (thread (u_id sender) (u_id recipient) w1)
              (thread (u_id sender) (u_id recipient) w ++ [m])) as Hperm.
    { unfold thread. rewrite !js_sort_perm, Hst, List.filter_app. simpl.
      assert (between (u_id sender) (u_id recipient) m = true) as ->; [|done].
      apply between_spec. by left. }
    replace (length (thread (u_id sender) (u_id recipient) w1) - 50)%nat with 0%nat.
    - rewrite drop_0, Hperm. apply elem_of_app. right. by apply list_elem_of_singleton.
    - rewrite (Permutation_length Hperm), length_app. simpl. lia. }
  split; [done|].
  unfold conversation_of in *.
  by rewrite <- (conversation_is_shared_lemma sender recipient req_sender req_recipient w1).
Qed.

Lemma sent_message_is_in_the_conversation_witness :
  Sample2.hi_to_alice ∈ conversation_of Sample.bob (Sample.request "t2" "u1") Sample2.world_hi /\
  Sample2.hi_to_alice ∈ conversation_of Sample.alice (Sample.request "t1" "u2") Sample2.world_hi.
Proof.
  apply (sent_message_is_in_the_conversation Sample.env0 Sample.bob Sample.alice
           (Sample.request "t2" "") (Sample.request "t2" "u1") (Sample.request "t1" "u2")
           Sample.world_both).
  - reflexivity.
  - discriminate.
  - reflexivity.
  - reflexivity.
  - reflexivity.
  - reflexivity.
  - vm_compute. lia.
Defined.

Lemma findIndex_insert {A} (p : A -> bool) (l : list A) (i : nat) (a' : A) :
  findIndex p l = Some i -> p a' = true -> findIndex p (<[i := a']> l) = Some i.
Proof.
  revert i. induction l as [|x l IH]; intros i; simpl; [done|].
  destruct (p x) eqn:Hp.
  - intros [= <-] Ha. simpl. by rewrite Ha.
  - destruct (findIndex p l) as [j|] eqn:Hj; simpl; [|done].
    intros [= <-] Ha. simpl. rewrite Hp. by rewrite (IH j).
Qed.




(** ** Joining and leaving a group *)

Lemma includes_spec (x : string) (l : list string) : includes x l = true <-> In x l.
Proof.
  unfold includes. rewrite existsb_exists. split.
  - intros (y & Hy & Heq). apply String.eqb_eq in Heq. by subst.
  - intros H. exists x. split; [done|]. apply String.eqb_refl.
Qed.

Lemma includes_snoc (x : string) (l : list string) : includes x (l ++ [x]) = true.
Proof. apply includes_spec, in_or_app. right. by left. Qed.

Lemma includes_removed (x : string) (l : list string) :
  includes x (List.filter (fun id => negb (String.eqb id x)) l) = false.
Proof.
  apply not_true_iff_false. rewrite includes_spec, filter_In.
  intros [_ H]. by rewrite String.eqb_refl in H.
Qed.

Lemma filter_snoc_absent (x : string) (l : list string) :
  includes x l = false ->
  List.filter (fun id => negb (String.eqb id x)) (l ++ [x]) = l.
Proof.
  intros H. rewrite List.filter_app. simpl. rewrite String.eqb_refl. simpl.
  rewrite app_nil_r. induction l as [|y l IH]; simpl in *; [done|].
  apply orb_false_iff in H as [Hy Hl]. rewrite String.eqb_sym, Hy. simpl.
  by rewrite IH.
Qed.

Lemma post_group_join_found env user req w i group :
  findIndex (fun g => String.eqb (g_id g) (req_params_id req)) (stored_groups w) = Some i ->
  stored_groups w !! i = Some group ->
  let out := post_group_join env user req w in
  if includes (u_id user) (g_members group)
  then out = (inl (reject 400 "Already a member of this group"), w)
  else fst out = inr {| ok_status := 200; ok_message := Some "Successfully joined group";
                        ok_body := add_member (u_id user) group |} /\
       stored_groups (snd out) =
         (if e_write_ok env FGroups
          then <[i := add_member (u_id user) group]> (stored_groups w)
          else stored_groups w) /\
       d_messages (w_disk (snd out)) = d_messages (w_disk w) /\
       stored_users (snd out) = stored_users w /\
       w_emitted (snd out) = w_emitted w.
Proof.
  unfold stored_groups, stored_users, post_group_join. unfold_monad.
  intros Hi Hg. open_world w. simpl in *.
  destruct groups as [groups|]; simpl in *; [|done].
  rewrite Hi, Hg. destruct (includes (u_id user) (g_members group)); simpl; [done|].
  unfold push_communityGroup.
  destruct (e_write_ok env FGroups), users as [users|]; simpl;
    try (destruct (findIndex _ users) as [j|]; simpl;
         [destruct (e_write_ok env FUsers); simpl|]);
    rewrite ?list_alter_id by done; done.
Qed.

Lemma post_group_leave_found env user req w i group :
  findIndex (fun g => String.eqb (g_id g) (req_params_id req)) (stored_groups w) = Some i ->
  stored_groups w !! i = Some group ->
  let out := post_group_leave env user req w in
  fst out = {| r_status := 200; r_success := true; r_message := "Successfully left group";
               r_data := DNone |} /\
  stored_groups (snd out) =
    (if e_write_ok env FGroups
     then <[i := remove_member (u_id user) group]> (stored_groups w)
     else stored_groups w) /\
  d_messages (w_disk (snd out)) = d_messages (w_disk w) /\
  stored_users (snd out) = stored_users w /\
  w_emitted (snd out) = w_emitted w.
Proof.
  unfold stored_groups, stored_users, post_group_leave. unfold_monad.
  intros Hi Hg. open_world w. simpl in *.
  destruct groups as [groups|]; simpl in *; [|done].
  rewrite Hi, Hg. simpl. unfold drop_communityGroup.
  destruct (e_write_ok env FGroups), users as [users|]; simpl;
    try (destruct (findIndex _ users) as [j|]; simpl;
         [destruct (e_write_ok env FUsers); simpl|]);
    rewrite ?list_alter_id by done; done.
Qed.

Lemma post_group_message_reply env user req w group :
  truthy (b_content (req_body req)) = true ->
  List.find (fun g => String.eqb (g_id g) (req_params_id req)) (stored_groups w) = Some group ->
  r_status (fst (post_group_message env user req w)) =
    if includes (u_id user) (g_members group) then 201 else 403.
Proof.
  unfold stored_groups, post_group_message. unfold_monad.
  intros Hc Hg. open_world w. simpl in *. rewrite Hc. simpl.
  destruct groups as [groups|]; simpl in *; [|done].
  rewrite Hg. destruct (includes (u_id user) (g_members group)); simpl; [|done].
  destruct (find_findIndex _ _ _ Hg) as (i & -> & _ & _).
  destruct messages, (e_write_ok env FMessages), (e_write_ok env FGroups), users; done.
Qed.

(** X12. Joining a group one is already a member of is refused with 400,
    and nothing at all changes: the HTTP route never enters a member
    twice. *)
Theorem join_of_a_member_is_refused env user req w :
  is_member (u_id user) (req_params_id req) w = true ->
  post_group_join env user req w =
    (inl (reject 400 "Already a member of this group"), w).
Proof.
  unfold is_member. intros Hm.
  destruct (List.find _ (stored_groups w)) as [group|] eqn:Hg; [|done].
  destruct (find_findIndex _ _ _ Hg) as (i & Hi & Hl & _).
  pose proof (post_group_join_found env user req w i group Hi Hl) as H.
  simpl in H. by rewrite Hm in H.
Qed.

Lemma join_of_a_member_is_refused_witness :
  post_group_join Sample.env0 Sample.alice (Sample.request "t1" "g1") Sample.world_alice =
    (inl (reject 400 "Already a member of this group"), Sample.world_alice).
Proof.
  apply (join_of_a_member_is_refused Sample.env0 Sample.alice (Sample.request "t1" "g1")
           Sample.world_alice).
  reflexivity.
Defined.

(** X13. Somebody who is not a member of an existing group joins it: once
    the save has succeeded he is its last member, the count is the number of
    members, the messages are as they were, and the message he then posts,
    which was answered 403 before, is answered 201. *)
Theorem join_opens_the_group env user req w group :
  List.find (fun g => String.eqb (g_id g) (req_params_id req)) (stored_groups w) = Some group ->
  includes (u_id user) (g_members group) = false ->
  e_write_ok env FGroups = true ->
  truthy (b_content (req_body req)) = true ->
  let w1 := snd (post_group_join env user req w) in
  List.find (fun g => String.eqb (g_id g) (req_params_id req)) (stored_groups w1) =
    Some {| g_id := g_id group; g_name := g_name group;
            g_members := g_members group ++ [u_id user];
            g_memberCount := Z.of_nat (length (g_members group)) + 1;
            g_messageCount := g_messageCount group |} /\
  is_member (u_id user) (req_params_id req) w1 = true /\
  stored_messages w1 = stored_messages w /\
  forall env',
    r_status (fst (post_group_message env' user req w)) = 403 /\
    r_status (fst (post_group_message env' user req w1)) = 201.
Proof.
  intros Hg Hm Hw Hc w1.
  destruct (find_findIndex _ _ _ Hg) as (i & Hi & Hl & Hid).
  pose proof (post_group_join_found env user req w i group Hi Hl) as H.
  simpl in H. rewrite Hm, Hw in H. destruct H as (_ & Hst & Hmsg & _).
  fold w1 in Hst, Hmsg. clearbody w1.
  assert (List.find (fun g => String.eqb (g_id g) (req_params_id req)) (stored_groups w1) =
          Some (add_member (u_id user) group)) as Hg1.
  { rewrite Hst. by apply find_insert_findIndex. }
  split; [|split; [|split]].
  - rewrite Hg1. unfold add_member. do 2 f_equal. rewrite length_app. simpl. lia.
  - unfold is_member. rewrite Hg1. simpl. apply includes_snoc.
  - unfold stored_messages. by rewrite Hmsg.
  - intros env'. split.
    + rewrite (post_group_message_reply env' user req w group Hc Hg). by rewrite Hm.
    + rewrite (post_group_message_reply env' user req w1 _ Hc Hg1). simpl.
      by rewrite includes_snoc.
Qed.

Lemma join_opens_the_group_witness :
  is_member "u2" "g1"
    (snd (post_group_join Sample.env0 Sample.bob (Sample.request "t2" "g1") Sample.world_bob))
  = true.
Proof.
  apply (join_opens_the_group Sample.env0 Sample.bob (Sample.request "t2" "g1")
           Sample.world_bob Sample.g1).
  - reflexivity.
  - reflexivity.
  - reflexivity.
  - reflexivity.
Defined.

(** X14. Leaving an existing group is always answered 200, member or not.
    Once the save has succeeded the caller is not a member, the count is the
    number of members that are left, and his messages to the group are
    answered 403. *)
Theorem leave_closes_the_group env user req w group :
  List.find (fun g => String.eqb (g_id g) (req_params_id req)) (stored_groups w) = Some group ->
  e_write_ok env FGroups = true ->
  truthy (b_content (req_body req)) = true ->
  let out := post_group_leave env user req w in
  r_status (fst out) = 200 /\
  is_member (u_id user) (req_params_id req) (snd out) = false /\
  (exists group',
     List.find (fun g => String.eqb (g_id g) (req_params_id req)) (stored_groups (snd out))
       = Some group' /\
     g_members group' = List.filter (fun id => negb (String.eqb id (u_id user))) (g_members group) /\
     g_memberCount group' = Z.of_nat (length (g_members group'))) /\
  forall env', r_status (fst (post_group_message env' user req (snd out))) = 403.
Proof.
  intros Hg Hw Hc out.
  destruct (find_findIndex _ _ _ Hg) as (i & Hi & Hl & Hid).
  destruct (post_group_leave_found env user req w i group Hi Hl) as (Hr & Hst & _).
  rewrite Hw in Hst. fold out in Hr, Hst.
  assert (List.find (fun g => String.eqb (g_id g) (req_params_id req))
            (stored_groups (snd out)) = Some (remove_member (u_id user) group)) as Hg1.
  { rewrite Hst. by apply find_insert_findIndex. }
  split; [by rewrite Hr|]. split; [|split].
  - unfold is_member. rewrite Hg1. simpl. apply includes_removed.
  - eexists. split; [exact Hg1|]. done.
  - intros env'. rewrite (post_group_message_reply env' user req (snd out) _ Hc Hg1).
    simpl. by rewrite includes_removed.
Qed.

Lemma leave_closes_the_group_witness :
  is_member "u1" "g1"
    (snd (post_group_leave Sample.env0 Sample.alice (Sample.request "t1" "g1")
            Sample.world_alice)) = false.
Proof.
  apply (leave_closes_the_group Sample.env0 Sample.alice (Sample.request "t1" "g1")
           Sample.world_alice Sample.g1).
  - reflexivity.
  - reflexivity.
  - reflexivity.
Defined.

(** X15. Joining and then leaving puts the groups collection back as it
    was, for a caller who was not a member of a group whose count was the
    number of its members. *)
Theorem join_then_leave_restores env env' user req w group :
  List.find (fun g => String.eqb (g_id g) (req_params_id req)) (stored_groups w) = Some group ->
  includes (u_id user) (g_members group) = false ->
  g_memberCount group = Z.of_nat (length (g_members group)) ->
  e_write_ok env FGroups = true ->
  e_write_ok env' FGroups = true ->
  stored_groups (snd (post_group_leave env' user req (snd (post_group_join env user req w))))
  = stored_groups w.
Proof.
  intros Hg Hm Hcount Hw Hw'.
  destruct (find_findIndex _ _ _ Hg) as (i & Hi & Hl & Hid).
  pose proof (post_group_join_found env user req w i group Hi Hl) as H.
  simpl in H. rewrite Hm, Hw in H. destruct H as (_ & Hst & _).
  set (w1 := snd (post_group_join env user req w)) in *. clearbody w1.
  assert (findIndex (fun g => String.eqb (g_id g) (req_params_id req)) (stored_groups w1)
          = Some i) as Hi1 by (rewrite Hst; by apply findIndex_insert).
  assert (stored_groups w1 !! i = Some (add_member (u_id user) group)) as Hl1.
  { rewrite Hst. apply list_lookup_insert_eq. by eapply lookup_lt_Some. }
  destruct (post_group_leave_found env' user req w1 i _ Hi1 Hl1) as (_ & Hst2 & _).
  rewrite Hw' in Hst2. rewrite Hst2, Hst, list_insert_insert_eq.
  apply list_insert_id. rewrite Hl. f_equal.
  unfold remove_member, add_member. simpl. rewrite filter_snoc_absent by done.
  destruct group; simpl in *. by rewrite Hcount.
Qed.

Lemma join_then_leave_restores_witness :
  stored_groups
    (snd (post_group_leave Sample.env0 Sample.bob (Sample.request "t2" "g1")
            (snd (post_group_join Sample.env0 Sample.bob (Sample.request "t2" "g1")
                    Sample.world_bob))))
  = stored_groups Sample.world_bob.
Proof.
  apply (join_then_leave_restores Sample.env0 Sample.env0 Sample.bob
           (Sample.request "t2" "g1") Sample.world_bob Sample.g1).
  - reflexivity.
  - reflexivity.
  - reflexivity.
  - reflexivity.
  - reflexivity.
Defined.

(** ** The count and the members of a group *)

Lemma dispatch_groups jwt env ev w o w1 :
  dispatch jwt env ev w = (o, w1) ->
  stored_groups w1 = stored_groups w \/
  exists i, stored_groups w1 = alter bump_messageCount i (stored_groups w).
Proof.
  intros H. unfold stored_groups. open_world w.
  destruct ev; run_handler; first [by left | right; eexists; reflexivity].
Qed.

Lemma post_group_join_groups env user req w :
  stored_groups (snd (post_group_join env user req w)) = stored_groups w \/
  exists i group,
    stored_groups w !! i = Some group /\ includes (u_id user) (g_members group) = false /\
    stored_groups (snd (post_group_join env user req w)) =
      <[i := add_member (u_id user) group]> (stored_groups w).
Proof.
  destruct (findIndex (fun g => String.eqb (g_id g) (req_params_id req)) (stored_groups w))
    as [i|] eqn:Hi.
  - destruct (findIndex_find _ _ _ Hi) as (group & Hl & _).
    pose proof (post_group_join_found env user req w i group Hi Hl) as H. simpl in H.
    destruct (includes (u_id user) (g_members group)) eqn:Hm.
    + left. by rewrite H.
    + destruct H as (_ & Hst & _). destruct (e_write_ok env FGroups); [|by left].
      right. by exists i, group.
  - left. unfold stored_groups, post_group_join in *. unfold_monad. simpl.
    destruct (d_groups (w_disk w)) eqn:Hd; simpl in *; [|by rewrite Hd].
    rewrite Hi. simpl. by rewrite Hd.
Qed.

Lemma post_group_leave_groups env user req w :
  stored_groups (snd (post_group_leave env user req w)) = stored_groups w \/
  exists i group,
    stored_groups w !! i = Some group /\
    stored_groups (snd (post_group_leave env user req w)) =
      <[i := remove_member (u_id user) group]> (stored_groups w).
Proof.
  destruct (findIndex (fun g => String.eqb (g_id g) (req_params_id req)) (stored_groups w))
    as [i|] eqn:Hi.
  - destruct (findIndex_find _ _ _ Hi) as (group & Hl & _).
    destruct (post_group_leave_found env user req w i group Hi Hl) as (_ & Hst & _).
    destruct (e_write_ok env FGroups); [|by left].
    right. by exists i, group.
  - left. unfold stored_groups, post_group_leave in *. unfold_monad. simpl.
    destruct (d_groups (w_disk w)) eqn:Hd; simpl in *; [|by rewrite Hd].
    rewrite Hi. simpl. by rewrite Hd.
Qed.

(** X16. If in every stored group the count is the number of members and no
    member is entered twice, this is still so after a join, after a leave,
    and after any request or socket event of the dispatcher, whether the
    saves succeed or not. *)
Theorem groups_stay_in_order jwt env user req ev w :
  groups_in_order w ->
  groups_in_order (snd (post_group_join env user req w)) /\
  groups_in_order (snd (post_group_leave env user req w)) /\
  groups_in_order (snd (dispatch jwt env ev w)).
Proof.
  unfold groups_in_order. intros Hinv. split; [|split].
  - destruct (post_group_join_groups env user req w) as [-> | (i & group & Hl & Hm & ->)];
      [done|].
    apply Forall_insert; [done|].
    pose proof (Forall_lookup_1 _ _ _ _ Hinv Hl) as Hg.
    destruct Hg as [Hcount Hnodup]. split; [done|]. simpl.
    apply list.NoDup_app. split; [done|]. split; [|apply NoDup_singleton].
    intros x Hx Hx'. apply list_elem_of_singleton in Hx'. subst x.
    apply not_true_iff_false in Hm. apply Hm, includes_spec. by apply list_elem_of_In.
  - destruct (post_group_leave_groups env user req w) as [-> | (i & group & Hl & ->)];
      [done|].
    apply Forall_insert; [done|].
    pose proof (Forall_lookup_1 _ _ _ _ Hinv Hl) as Hg.
    destruct Hg as [Hcount Hnodup]. split; [done|]. simpl.
    apply NoDup_ListNoDup, List.NoDup_filter, NoDup_ListNoDup. done.
  - destruct (dispatch jwt env ev w) as [o w1] eqn:Hd. simpl.
    destruct (dispatch_groups jwt env ev w o w1 Hd) as [-> | (i & ->)]; [done|].
    apply Forall_alter; [done|]. intros g _ Hg. exact Hg.
Qed.

Lemma groups_stay_in_order_witness :
  groups_in_order
    (snd (post_group_join Sample.env0 Sample.bob (Sample.request "t2" "g1") Sample.world_bob)).
Proof.
  apply (groups_stay_in_order Sample.jwt0 Sample.env0 Sample.bob (Sample.request "t2" "g1")
           (SockDisconnect "s2") Sample.world_bob).
  constructor; [|constructor]. split; [reflexivity|]. apply NoDup_singleton.
Defined.

(** ** Who gets through the middleware *)

Lemma middleware_lets_valid_tokens_only_lemma jwt req w :
  match authMiddleware jwt req w with
  | (inl resp, w0) => r_status resp = 401 /\ r_success resp = false /\ same_but_console w w0
  | (inr user, w0) =>
      w0 = w /\ user ∈ stored_users w /\
      exists header token,
        req_authorization req = Some header /\
        nth_error (split_space header) 1 = Some token /\
        token <> "" /\ jwt token = Some (u_id user)
  end.
Proof.
  assert (forall msg, r_status (reject 401 msg) = 401 /\ r_success (reject 401 msg) = false /\
                      same_but_console w w) as Hrefuse.
  { intros msg. split; [done|]. split; [done|]. apply same_but_console_refl. }
  unfold authMiddleware, stored_users. unfold_monad.
  destruct (req_authorization req) as [header|]; [|apply Hrefuse].
  destruct (nth_error (split_space header) 1) as [token|] eqn:Hn; [|apply Hrefuse].
  destruct (String.eqb_spec token "") as [->|Hne]; [apply Hrefuse|].
  destruct (jwt token) as [uid|] eqn:Hj; [|apply Hrefuse].
  simpl in *. destruct (d_users (w_disk w)) as [users|]; simpl.
  - destruct (List.find _ users) as [user|] eqn:Hf; simpl; [|apply (Hrefuse "")].
    apply find_some in Hf as [Hin Hid]. apply String.eqb_eq in Hid.
    split; [done|]. split; [by apply list_elem_of_In|].
    exists header, token. by rewrite Hid.
  - split; [done|]. split; [done|]. by repeat split.
Qed.

(** X17. The middleware either answers 401, or lets through a stored user
    whose id is what the second word of the [Authorization] header verifies
    to; in that case it has changed nothing, not even the console. *)
Theorem middleware_lets_valid_tokens_only jwt req w :
  match authMiddleware jwt req w with
  | (inl resp, w0) => r_status resp = 401 /\ r_success resp = false /\ same_but_console w w0
  | (inr user, w0) =>
      w0 = w /\ user ∈ stored_users w /\
      exists header token,
        req_authorization req = Some header /\
        nth_error (split_space header) 1 = Some token /\
        token <> "" /\ jwt token = Some (u_id user)
  end.
Proof. apply middleware_lets_valid_tokens_only_lemma. Qed.

(** X18. A request that the middleware refuses never reaches its handler:
    the caller gets the 401, and no file, no presence entry and no emitted
    event has changed. *)
Theorem refused_request_changes_nothing jwt env ev req w resp w0 :
  is_http ev = Some req ->
  authMiddleware jwt req w = (inl resp, w0) ->
  dispatch jwt env ev w = (Replied resp, w0) /\
  r_status resp = 401 /\ same_but_console w w0 /\
  forall A (handler : User -> Request -> M (Response + Ok A)),
    route_to jwt handler req w = (inl resp, w0).
Proof.
  intros Hev Hauth.
  pose proof (middleware_lets_valid_tokens_only_lemma jwt req w) as H.
  rewrite Hauth in H. destruct H as (H401 & _ & Hsame).
  split; [|split; [done|split; [done|]]].
  - destruct ev; simpl in Hev; simplify_eq; unfold dispatch, bind, ret;
      by rewrite (route_refused _ _ _ _ _ _ Hauth).
  - intros A handler. unfold route_to, bind, ret. by rewrite Hauth.
Qed.

Lemma refused_request_changes_nothing_witness :
  dispatch Sample.jwt0 Sample.env0 (HttpGroupMessage (Sample.request "t9" "g1"))
    Sample.world_alice =
  (Replied (reject 401 "Invalid token"), Sample.world_alice).
Proof.
  apply (refused_request_changes_nothing Sample.jwt0 Sample.env0
           (HttpGroupMessage (Sample.request "t9" "g1")) (Sample.request "t9" "g1")
           Sample.world_alice (reject 401 "Invalid token") Sample.world_alice).
  - reflexivity.
  - reflexivity.
Defined.

Lemma split_space_word (scheme rest : string) :
  one_word scheme = true ->
  split_space (String.append scheme (String " " rest)) = scheme :: split_space rest.
Proof.
  induction scheme as [|c scheme IH]; simpl; [done|].
  destruct (Ascii.eqb c " ") eqn:Hc; simpl; [done|].
  intros Hw. by rewrite (IH Hw).
Qed.

Lemma split_space_one_word (s : string) : one_word s = true -> split_space s = [s].
Proof.
  induction s as [|c s IH]; simpl; [done|].
  destruct (Ascii.eqb c " "); simpl; [done|]. intros Hw. by rewrite (IH Hw).
Qed.

(** X19. The middleware does not look at the first word of the header:
    whatever word stands in the place of "Bearer", the outcome is the same.
    A header that is a token alone, with no word before it, is answered
    401 "No authentication token provided". *)
Theorem scheme_is_not_checked jwt (scheme token : string) (req req' req0 : Request) w :
  one_word scheme = true ->
  req_authorization req = Some (String.append scheme (String " " token)) ->
  req_authorization req' = Some (String.append "Bearer" (String " " token)) ->
  req_authorization req0 = Some scheme ->
  authMiddleware jwt req w = authMiddleware jwt req' w /\
  authMiddleware jwt req0 w = (inl (reject 401 "No authentication token provided"), w).
Proof.
  intros Hw H1 H2 H0. unfold authMiddleware.
  rewrite H1, H2, H0, (split_space_word scheme token Hw),
    (split_space_word "Bearer" token eq_refl), (split_space_one_word scheme Hw).
  split; reflexivity.
Qed.

Lemma scheme_is_not_checked_witness :
  authMiddleware Sample.jwt0
    {| req_authorization := Some "Token t1"; req_params_id := ""; req_body := Sample.body0 |}
    (Sample.world0 []) =
  authMiddleware Sample.jwt0 (Sample.request "t1" "") (Sample.world0 []).
Proof.
  apply (scheme_is_not_checked Sample.jwt0 "Token" "t1"
           {| req_authorization := Some "Token t1"; req_params_id := "";
              req_body := Sample.body0 |}
           (Sample.request "t1" "")
           {| req_authorization := Some "Token"; req_params_id := "";
              req_body := Sample.body0 |}
           (Sample.world0 [])).
  - reflexivity.
  - reflexivity.
  - reflexivity.
  - reflexivity.
Defined.

(** ** What a handler leaves alone *)

(** X20. Each collection has its writers among the handlers described here.
    The messages are written by the two handlers that send a group message
    and by no other; the groups by the HTTP one of them, by join and by
    leave; the alerts by the three alert routes; the direct messages by the
    route that sends one and by the read mark; the users by join, by leave
    and by the registration.  No socket event but [send-group-message] and
    none of the four listings changes a file. *)
Theorem each_collection_has_its_writers jwt sign parseInt env ev (user : User) (req : Request)
    (q : Query) (body : RegisterBody) (stage : Stage) (w : World) :
  let w1 := snd (dispatch jwt env ev w) in
  let kept {A} (file : Disk -> option (list A)) (w' : World) :=
    file (w_disk w') = file (w_disk w) in
  (* the requests and the socket events of the dispatcher *)
  (kept d_users w1 /\
   match ev with
   | HttpGroupMessage _ | SockSendGroupMessage _ _ => True
   | _ => kept d_messages w1
   end /\
   match ev with
   | HttpGroupMessage _ => True
   | _ => kept d_groups w1
   end /\
   match ev with
   | HttpEmergencyAlert _ | HttpAlertResolve _ | HttpAlertCancel _ => True
   | _ => kept d_emergency w1
   end /\
   match ev with
   | HttpMessagesSend _ => True
   | _ => kept d_directMessages w1
   end) /\
  (* join and leave *)
  (let w2 := snd (post_group_join env user req w) in
   kept d_messages w2 /\ kept d_emergency w2 /\ kept d_directMessages w2) /\
  (let w2 := snd (post_group_leave env user req w) in
   kept d_messages w2 /\ kept d_emergency w2 /\ kept d_directMessages w2) /\
  (* the read mark *)
  (let w2 := snd (post_message_read env user req w) in
   kept d_users w2 /\ kept d_groups w2 /\ kept d_messages w2 /\ kept d_emergency w2) /\
  (* the registration, at any stage *)
  (let w2 := snd (post_users_register sign env body stage w) in
   kept d_groups w2 /\ kept d_messages w2 /\ kept d_emergency w2 /\
   kept d_directMessages w2) /\
  (* the listings *)
  w_disk (snd (get_group_messages parseInt user req q w)) = w_disk w /\
  w_disk (snd (get_alerts user req q w)) = w_disk w /\
  w_disk (snd (get_alert user req w)) = w_disk w /\
  w_disk (snd (get_conversation user req w)) = w_disk w.
Proof.
  simpl. open_world w.
  split; [|split; [|split; [|split; [|split; [|split; [|split; [|split]]]]]]].
  - destruct ev; unfold_handlers; unfold_monad; simpl;
      repeat (case_match; simplify_eq; simpl in * ); done.
  - unfold post_group_join; unfold_monad; simpl;
      repeat (case_match; simplify_eq; simpl in * ); done.
  - unfold post_group_leave; unfold_monad; simpl;
      repeat (case_match; simplify_eq; simpl in * ); done.
  - unfold post_message_read; unfold_monad; simpl;
      repeat (case_match; simplify_eq; simpl in * ); done.
  - unfold post_users_register; unfold_monad; simpl;
      repeat (case_match; simplify_eq; simpl in * ); done.
  - unfold get_group_messages; unfold_monad; simpl;
      repeat (case_match; simplify_eq; simpl in * ); done.
  - unfold get_alerts; unfold_monad; simpl;
      repeat (case_match; simplify_eq; simpl in * ); done.
  - unfold get_alert; unfold_monad; simpl;
      repeat (case_match; simplify_eq; simpl in * ); done.
  - unfold get_conversation; unfold_monad; simpl;
      repeat (case_match; simplify_eq; simpl in * ); done.
Qed.


(** X22. An announce or a disconnect touches the entry of one identity: for
    every other identity the table gives what it gave before. *)
Theorem presence_of_others_is_kept (sid : string) (u v : value) (w : World) :
  v <> u ->
  resolve v (snd (on_user_join sid u w)) = resolve v w /\
  (w_socketUser w !! sid = Some u ->
   resolve v (snd (on_disconnect sid w)) = resolve v w).
Proof.
  intros Hne. unfold resolve. split.
  - rewrite user_join_presence. by apply lookup_insert_ne.
  - intros Hs. destruct (truthy u) eqn:Hu.
    + destruct (disconnect_identified sid u w Hs Hu) as [-> _].
      by apply lookup_delete_ne.
    + rewrite disconnect_unidentified; [done|]. by rewrite Hs.
Qed.

Lemma presence_of_others_is_kept_witness :
  resolve (VStr "u2") (snd (on_user_join "s1" (VStr "u1") Sample.world_bob)) =
  resolve (VStr "u2") Sample.world_bob.
Proof.
  assert (VStr "u2" <> VStr "u1") as Hne by discriminate.
  exact (proj1 (presence_of_others_is_kept "s1" (VStr "u1") (VStr "u2") Sample.world_bob Hne)).
Defined.

(** X23. A second [disconnect] of the same socket leaves the presence table
    as the first one left it, and no file changes; but the identity stays
    bound to the socket, so the offline status goes out a second time. *)
Theorem disconnect_twice (sid : string) (u : value) (w : World) :
  w_socketUser w !! sid = Some u -> truthy u = true ->
  let w1 := snd (on_disconnect sid w) in
  let w2 := snd (on_disconnect sid w1) in
  w_connectedUsers w2 = w_connectedUsers w1 /\
  w_disk w2 = w_disk w /\
  w_emitted w2 = w_emitted w ++
    [ {| em_target := ToAll; em_event := "user-status";
         em_payload := PUserStatus u "offline" (size (w_connectedUsers w1)) |};
      {| em_target := ToAll; em_event := "user-status";
         em_payload := PUserStatus u "offline" (size (w_connectedUsers w1)) |} ].
Proof.
  intros Hs Hu w1 w2.
  destruct (disconnect_identified sid u w Hs Hu) as [Hdel Hem]. fold w1 in Hdel, Hem.
  assert (w_socketUser w1 !! sid = Some u /\ w_disk w1 = w_disk w) as [Hs1 Hd1].
  { subst w1. unfold on_disconnect. unfold_monad. simpl. rewrite Hs. simpl.
    by rewrite Hu. }
  assert (w_disk w2 = w_disk w1) as Hd2.
  { subst w2. unfold on_disconnect. unfold_monad. simpl. rewrite Hs1. simpl.
    by rewrite Hu. }
  clearbody w1.
  destruct (disconnect_identified sid u w1 Hs1 Hu) as [Hdel2 Hem2]. fold w2 in Hdel2, Hem2.
  clearbody w2.
  assert (w_connectedUsers w2 = w_connectedUsers w1) as Heq.
  { rewrite Hdel2, Hdel. apply delete_id. apply lookup_delete_eq. }
  split; [done|]. split; [congruence|].
  rewrite Hem2, Hem, Heq, <- app_assoc. done.
Qed.

Lemma disconnect_twice_witness :
  w_connectedUsers (snd (on_disconnect "s2" (snd (on_disconnect "s2" Sample.world_bob)))) =
  w_connectedUsers (snd (on_disconnect "s2" Sample.world_bob)).
Proof.
  apply (disconnect_twice "s2" (VStr "u2") Sample.world_bob).
  - reflexivity.
  - reflexivity.
Defined.

(** ** The prediction engine *)

Lemma set_values_spec (seen arr : list string) :
  NoDup (set_values seen arr) /\
  (forall x, In x (set_values seen arr) <-> In x arr /\ includes x seen = false) /\
  (length (set_values seen arr) <= length arr)%nat.
Proof.
  revert seen. induction arr as [|x arr IH]; intros seen; simpl.
  - split; [constructor|]. split; [|lia]. intros x. tauto.
  - destruct (includes x seen) eqn:Hx.
    + destruct (IH seen) as (Hnd & Hin & Hlen). split; [done|]. split; [|lia].
      intros y. rewrite Hin. split; [tauto|]. intros [[<-|Hy] Hs]; [congruence | done].
    + destruct (IH (x :: seen)) as (Hnd & Hin & Hlen). split; [|split; [|simpl; lia]].
      * constructor; [|done]. intros Hx'. apply list_elem_of_In, Hin in Hx' as [_ Hx'].
        simpl in Hx'. by rewrite String.eqb_refl in Hx'.
      * intros y. simpl. rewrite Hin. simpl. split.
        -- intros [<-|[Hy Hs]]; [tauto|]. apply orb_false_iff in Hs as [_ Hs]. tauto.
        -- intros [[<-|Hy] Hs]; [tauto|].
           destruct (String.eqb_spec y x) as [->|Hne]; [tauto|].
           right. split; [done|]. exact Hs.
Qed.

Lemma push_new_spec (suggestions : list string) (l : list Phrase) (x : string) :
  In x (foldl push_new suggestions l) <->
  In x suggestions \/ In x (map p_text l).
Proof.
  revert suggestions. induction l as [|p l IH]; intros suggestions; simpl; [tauto|].
  rewrite IH. unfold push_new.
  destruct (includes (p_text p) suggestions) eqn:Hp; simpl.
  - apply includes_spec in Hp. split; [tauto|]. intros [H|[<-|H]]; tauto.
  - rewrite in_app_iff. simpl. tauto.
Qed.

Lemma matching_built_in (lastWord x : string) : In x (matching lastWord) -> built_in x.
Proof.
  unfold matching, built_in.
  assert (forall (table : list (string * list string)) acc,
            In x (foldl (fun suggestions entry =>
                           if js_includes lastWord (fst entry) || js_includes (fst entry) lastWord
                           then suggestions ++ snd entry else suggestions) acc table) ->
            In x acc \/ exists key values, In (key, values) table /\ In x values) as H.
  { induction table as [|[key values] table IH]; intros acc; simpl; [tauto|].
    intros Hin. apply IH in Hin as [Hin|(k & v & Hk & Hv)].
    - destruct (js_includes lastWord key || js_includes key lastWord); [|tauto].
      apply in_app_iff in Hin as [Hin|Hin]; [tauto|]. right. exists key, values. tauto.
    - right. exists k, v. tauto. }
  intros Hin. apply H in Hin as [[]|Hin]. exact Hin.
Qed.

Lemma predict_is_bounded_and_sourced_lemma toLowerCase text (userPhrases : list Phrase) :
  (length (predict toLowerCase text userPhrases) <= 5)%nat /\
  NoDup (predict toLowerCase text userPhrases) /\
  Forall (fun s => built_in s \/ In s (map p_text (take 3 userPhrases)))
         (predict toLowerCase text userPhrases).
Proof.
  unfold predict.
  change (Some (Some 5)) with (Some (Some (Z.of_nat 5))).
  change (Some (Some 3)) with (Some (Some (Z.of_nat 3))).
  rewrite !js_slice_first.
  set (lastWord := List.last (split_space (toLowerCase text)) "").
  destruct (set_values_spec [] (foldl push_new (matching lastWord) (take 3 userPhrases)))
    as (Hnd & Hin & _).
  split; [rewrite length_take; lia|]. split.
  - eapply sublist_NoDup; [exact Hnd | apply sublist_take].
  - apply List.Forall_forall. intros s Hs. apply list_elem_of_In in Hs.
    eapply elem_of_sublist in Hs; [|apply sublist_take].
    apply list_elem_of_In, Hin in Hs as [Hs _].
    apply push_new_spec in Hs as [Hs|Hs]; [left; by eapply matching_built_in | by right].
Qed.

(** X24. The engine never gives more than five suggestions, never the same
    one twice, and each of them is either one of its own phrases or the text
    of one of the first three phrases it was handed. *)
Theorem predict_is_bounded_and_sourced toLowerCase text (userPhrases : list Phrase) :
  (length (predict toLowerCase text userPhrases) <= 5)%nat /\
  NoDup (predict toLowerCase text userPhrases) /\
  Forall (fun s => built_in s \/ In s (map p_text (take 3 userPhrases)))
         (predict toLowerCase text userPhrases).
Proof. apply predict_is_bounded_and_sourced_lemma. Qed.

Lemma split_space_trailing (s : string) :
  exists l, split_space (String.append s " ") = l ++ [""] /\ l <> [].
Proof.
  induction s as [|c s (l & IH & Hl)]; simpl.
  - by exists [""].
  - destruct (Ascii.eqb c " ").
    + exists ("" :: l). by rewrite IH.
    + rewrite IH. destruct l as [|h l']; [done|]. simpl. by exists (String c h :: l').
Qed.

Lemma last_word_after_space (s : string) :
  s = "" \/ (exists before, s = String.append before " ") ->
  List.last (split_space s) "" = "".
Proof.
  intros [->|(before & ->)]; [done|].
  destruct (split_space_trailing before) as (l & -> & _). apply last_last.
Qed.

(** X25. When the text is empty or ends with a space, so that its last word
    is empty, every key of the engine matches: the answer is always the same
    five phrases, the four for "hello" and the first for "thank", and no
    phrase of the user is ever among them. *)
Theorem predict_after_a_space toLowerCase text (userPhrases : list Phrase) :
  toLowerCase text = "" \/ (exists before, toLowerCase text = String.append before " ") ->
  predict toLowerCase text userPhrases =
    ["How are you?"; "Nice to meet you"; "What is your name?"; "How can I help?";
     "You are welcome"].
Proof.
  intros Hlast. unfold predict. rewrite (last_word_after_space _ Hlast).
  change (Some (Some 5)) with (Some (Some (Z.of_nat 5))).
  rewrite js_slice_first.
  set (mine := js_slice (Some 0) (Some (Some 3)) userPhrases). clearbody mine.
  assert (forall acc rest,
            (exists tail, acc = ["How are you?"; "Nice to meet you"; "What is your name?";
                                 "How can I help?"; "You are welcome"] ++ tail) ->
            exists tail, foldl push_new acc rest =
              ["How are you?"; "Nice to meet you"; "What is your name?";
               "How can I help?"; "You are welcome"] ++ tail) as Hkeep.
  { intros acc rest. revert acc. induction rest as [|p rest IH]; intros acc Hacc; [done|].
    simpl. apply IH. unfold push_new. destruct (negb (includes (p_text p) acc)); [|done].
    destruct Hacc as (tail & ->). eexists. by rewrite <- app_assoc. }
  destruct (Hkeep (matching "") mine) as (tail & ->); [by eexists|].
  reflexivity.
Qed.

Lemma predict_after_a_space_witness :
  predict lower "I said " Sample2.phrases =
    ["How are you?"; "Nice to meet you"; "What is your name?"; "How can I help?";
     "You are welcome"].
Proof.
  apply (predict_after_a_space lower "I said " Sample2.phrases).
  right. exists "i said". reflexivity.
Defined.

Lemma set_values_seen (seen seen' arr : list string) :
  (forall x, includes x seen = includes x seen') ->
  set_values seen arr = set_values seen' arr.
Proof.
  revert seen seen'. induction arr as [|x arr IH]; intros seen seen' H; simpl; [done|].
  rewrite <- H. destruct (includes x seen); [by apply IH|].
  f_equal. apply IH. intros y. simpl. by rewrite H.
Qed.

Lemma push_new_values (acc : list string) (l : list Phrase) :
  foldl push_new acc l = acc ++ set_values acc (map p_text l).
Proof.
  revert acc. induction l as [|p l IH]; intros acc; simpl; [by rewrite app_nil_r|].
  rewrite IH. unfold push_new. destruct (includes (p_text p) acc) eqn:Hp; simpl; [done|].
  rewrite <- app_assoc. simpl. do 2 f_equal. apply set_values_seen.
  intros y. unfold includes. rewrite existsb_app. simpl. rewrite orb_false_r. apply orb_comm.
Qed.

Lemma set_values_fixed (seen arr : list string) :
  NoDup arr -> (forall x, In x arr -> includes x seen = false) ->
  set_values seen arr = arr.
Proof.
  revert seen. induction arr as [|x arr IH]; intros seen Hnd Hs; simpl; [done|].
  apply list.NoDup_cons in Hnd as [Hx Hnd].
  rewrite (Hs x) by (by left). f_equal. apply IH; [done|].
  intros y Hy. simpl. rewrite Hs by (by right). rewrite orb_false_r.
  apply String.eqb_neq. intros ->. by apply Hx, list_elem_of_In.
Qed.

(** X26. When no key of the engine matches the last word, the answer is
    made of the user's phrases alone: the texts of the first three phrases
    handed over, each text once, in their order. *)
Theorem predict_without_a_match toLowerCase text (userPhrases : list Phrase) :
  matching (List.last (split_space (toLowerCase text)) "") = [] ->
  predict toLowerCase text userPhrases = set_values [] (map p_text (take 3 userPhrases)).
Proof.
  intros Hno. unfold predict. rewrite Hno.
  change (Some (Some 5)) with (Some (Some (Z.of_nat 5))).
  change (Some (Some 3)) with (Some (Some (Z.of_nat 3))).
  rewrite !js_slice_first, push_new_values. simpl.
  destruct (set_values_spec [] (map p_text (take 3 userPhrases))) as (Hnd & Hin & Hlen).
  rewrite set_values_fixed; [|done|done].
  apply take_ge. rewrite length_map, length_take in Hlen. lia.
Qed.

Lemma predict_without_a_match_witness :
  predict lower "Zzz" Sample2.phrases =
    set_values [] (map p_text (take 3 Sample2.phrases)).
Proof.
  apply (predict_without_a_match lower "Zzz" Sample2.phrases).
  reflexivity.
Defined.

(** X27. The phrases handed to the engine by the prediction route are at
    most ten, all of the caller, most used first; so a suggestion is a phrase
    of the engine or the text of one of the caller's own three most used
    phrases, never the phrase of another user. *)
Theorem predictions_use_own_phrases_only toLowerCase (user : User) text (phrases : list Phrase) :
  let mine := frequentPhrases user phrases in
  (length mine <= 10)%nat /\
  Forall (fun p => In p phrases /\ p_userId p = u_id user) mine /\
  StronglySorted (fun a b => p_usageCount b <= p_usageCount a) mine /\
  Forall (fun s => built_in s \/
                   exists p, In p phrases /\ p_userId p = u_id user /\ p_text p = s)
         (predict toLowerCase text mine).
Proof.
  intros mine.
  assert (Forall (fun p => In p phrases /\ p_userId p = u_id user) mine) as Hown.
  { subst mine. unfold frequentPhrases. apply js_slice_Forall, js_sort_Forall.
    apply List.Forall_forall. intros p Hp. apply filter_In in Hp as [Hp Hu].
    split; [done | by apply String.eqb_eq]. }
  split; [|split; [done|split]].
  - subst mine. unfold frequentPhrases.
    change (Some (Some 10)) with (Some (Some (Z.of_nat 10))).
    rewrite js_slice_first, length_take. lia.
  - subst mine. unfold frequentPhrases. apply js_slice_sorted.
    apply (js_sort_descending p_usageCount).
  - destruct (predict_is_bounded_and_sourced_lemma toLowerCase text mine) as (_ & _ & Hsrc).
    eapply list.Forall_impl; [exact Hsrc|]. intros s [Hb|Hu]; [by left|right].
    apply in_map_iff in Hu as (p & Hp & Hin). exists p.
    apply list_elem_of_In in Hin. eapply elem_of_sublist in Hin; [|apply sublist_take].
    apply (proj1 (list.Forall_forall _ _) Hown) in Hin as [? ?]. done.
Qed.
